(** * pg_tpcds benchmark report generator: embedding and properties

    Shallow embedding of [benchmarks/report.py].  Its near-duplicate
    [benchmarks/gen_chart.py] has the same function bodies, with the
    schema and the benchmark name hard-wired, so every statement below
    holds for both.

    Modelling choices.
    - Python [int] is [Z] (or [nat] for lengths and loop counters).
    - A Python [float] is the rational number that [repr] prints for it
      ([0.1] is [1 # 10]).  Comparison of floats is the order of [Q];
      arithmetic is exact, so the binary rounding of IEEE-754 (and what
      it does to ties in [round] and in [".0f"] formatting) is left out.
    - A raised exception is [None] in an [option]-valued function.
    - The filesystem is a finite map from paths to nodes; [meta.json]
      files are identified with what [json.load] makes of them.
    - The drawing calls on the matplotlib axes are recorded in a
      [Chart] record. *)

From Stdlib Require Import ZArith QArith Qround Qabs Lia Lqa Ascii Sorted.
From stdpp Require Import base option list strings gmap pretty sorting.

Local Open Scope Z_scope.
Local Open Scope string_scope.
Local Open Scope list_scope.

(** ** Python builtins used by the report generator *)

Module Py.

(** [x < y] on floats. *)
Definition Qltb (x y : Q) : bool :=
  (Qnum x * Zpos (Qden y) <? Qnum y * Zpos (Qden x))%Z.

(** [min(xs, key=key)]: the first element with the least key;
    [None] stands for the [ValueError] raised on an empty sequence. *)
Fixpoint min_from {A} (key : A → Q) (best : A) (xs : list A) : A :=
  match xs with
  | [] => best
  | x :: xs' => min_from key (if Qltb (key x) (key best) then x else best) xs'
  end.

Definition min_by {A} (key : A → Q) (xs : list A) : option A :=
  match xs with
  | [] => None
  | x :: xs' => Some (min_from key x xs')
  end.

(** [max(xs, key=key)]: the first element with the greatest key. *)
Fixpoint max_from {A} (key : A → Q) (best : A) (xs : list A) : A :=
  match xs with
  | [] => best
  | x :: xs' => max_from key (if Qltb (key best) (key x) then x else best) xs'
  end.

Definition max_by {A} (key : A → Q) (xs : list A) : option A :=
  match xs with
  | [] => None
  | x :: xs' => Some (max_from key x xs')
  end.

Definition min (xs : list Q) : option Q := min_by id xs.
Definition max (xs : list Q) : option Q := max_by id xs.

(** [sum(xs)]: left to right, starting from [0]. *)
Definition sum (xs : list Q) : Q := fold_left Qplus xs 0%Q.

(** [sorted(xs)]: a stable sort; insertion keeps equal keys in their
    original order. *)
Fixpoint insert_by {A} (le : A → A → bool) (x : A) (xs : list A) : list A :=
  match xs with
  | [] => [x]
  | y :: ys => if le x y then x :: y :: ys else y :: insert_by le x ys
  end.

Fixpoint sorted_by {A} (le : A → A → bool) (xs : list A) : list A :=
  match xs with
  | [] => []
  | x :: xs' => insert_by le x (sorted_by le xs')
  end.

Definition sorted (xs : list Q) : list Q :=
  sorted_by (λ x y, negb (Qltb y x)) xs.

(** Rounding to the nearest integer, ties to even. *)
Definition round_half_even (q : Q) : Z :=
  let f := Qfloor q in
  match (q - inject_Z f ?= 1 # 2)%Q with
  | Lt => f
  | Gt => f + 1
  | Eq => if Z.even f then f else f + 1
  end.

(** [round(x, ndigits)] on a float. *)
Definition round (x : Q) (ndigits : nat) : Q :=
  let scale := inject_Z (10 ^ Z.of_nat ndigits) in
  Qred (inject_Z (round_half_even (x * scale)) / scale).

(** [statistics.median(data)]; [None] stands for [StatisticsError]. *)
Definition median (data : list Q) : option Q :=
  let data := sorted data in
  let n := length data in
  if (n =? 0)%nat then None
  else if (n mod 2 =? 1)%nat then data !! (n / 2)%nat
  else
    let i := (n / 2)%nat in
    a ← data !! (i - 1)%nat; b ← data !! i; Some ((a + b) / 2)%Q.

End Py.

(** ** Data model *)

(** A [datetime] value, identified by what [isoformat()] returns. *)
Record datetime := { isoformat : string }.

(** One row of [bench_summary], as built by [fetch_bench_data]:
    a dict with the five selected columns ([run_ts] is SQL-nullable). *)
Record Row := {
  query_id : Z;
  status : string;
  duration_ms : Q;
  rows_returned : Z;
  run_ts : option datetime;
}.

(** [float(r["duration_ms"])] *)
Definition float_duration (r : Row) : Q := duration_ms r.

Definition is_ok (r : Row) : bool := String.eqb (status r) "OK".

(** Values held by the [metadata] dict and written to [meta.json]. *)
Inductive pyval :=
| VStr (s : string)
| VInt (n : Z)
| VNone.

(** An insertion-ordered dict with string keys. *)
Definition dict (V : Type) := list (string * V).

Fixpoint dict_get {V} (d : dict V) (k : string) : option V :=
  match d with
  | [] => None
  | (k', v) :: d' => if String.eqb k k' then Some v else dict_get d' k
  end.

Fixpoint dict_set {V} (k : string) (v : V) (d : dict V) : dict V :=
  match d with
  | [] => [(k, v)]
  | (k', v') :: d' =>
      if String.eqb k k' then (k, v) :: d' else (k', v') :: dict_set k v d'
  end.

(** The scale factor: an [int], or the literal ["unknown"]. *)
Inductive scale :=
| SfInt (n : Z)
| SfStr (s : string).

Definition str_scale (sf : scale) : string :=
  match sf with
  | SfInt n => pretty n
  | SfStr s => s
  end.

(** ** String and path helpers *)

(** [s.startswith(p)] *)
Definition startswith (s p : string) : bool := String.prefix p s.

(** [s.replace(old, new)] for a non-empty [old]: every non-overlapping
    occurrence, scanning from the left.  [skip] counts the characters
    of the occurrence just replaced that remain to be dropped. *)
Fixpoint replace_go (old new s : string) (skip : nat) : string :=
  match s with
  | EmptyString => EmptyString
  | String c s' =>
      match skip with
      | S k => replace_go old new s' k
      | O =>
          if String.prefix old s
          then new +:+ replace_go old new s' (String.length old - 1)
          else String c (replace_go old new s' 0)
      end
  end.

Definition replace (s old new : string) : string := replace_go old new s 0.

Fixpoint last_char (s : string) : option ascii :=
  match s with
  | EmptyString => None
  | String c EmptyString => Some c
  | String _ s' => last_char s'
  end.

(** [os.path.join(a, b)] (POSIX). *)
Definition path_join (a b : string) : string :=
  if String.prefix "/" b then b
  else if bool_decide (a = "") || bool_decide (last_char a = Some "/"%char)
  then a +:+ b
  else a +:+ "/" +:+ b.

Arguments path_join : simpl never.

(** ** [write_meta_json] *)

Record Results := {
  total_queries : Z;
  ok_count : Z;
  error_count : Z;
  total_duration_ms : Q;
  total_duration_s : Q;
  min_duration_ms : Q;
  max_duration_ms : Q;
  median_duration_ms : Q;
  fastest_query : option Z;
  slowest_query : option Z;
}.

Record Meta := {
  benchmark : string;
  schema : string;
  date : string;
  scale_factor : scale;
  meta_run_ts : option string;
  postgresql : dict pyval;
  system : dict pyval;
  results : Results;
}.

(** [{k.replace("pg_", ""): v for k, v in metadata.items()
      if k.startswith("pg_") and k not in ("pg_version", "pg_version_num")}] *)
Definition pg_settings (metadata : dict pyval) : dict pyval :=
  fold_left
    (λ d kv,
       let k := fst kv in
       if startswith k "pg_"
          && negb (String.eqb k "pg_version" || String.eqb k "pg_version_num")
       then dict_set (replace k "pg_" "") (snd kv) d
       else d)
    metadata [].

Definition get_default (metadata : dict pyval) (k : string) (dflt : pyval) : pyval :=
  default dflt (dict_get metadata k).

(** The ["results"] block.  [None] stands for a raised exception. *)
Definition results_block (rows : list Row) : option Results :=
  let durations := map float_duration rows in
  let ok_count := Z.of_nat (length (filter (λ r, is_ok r = true) rows)) in
  let err_count := Z.of_nat (length rows) - ok_count in
  let total_ms := Py.sum durations in
  let ok_durations := map float_duration (filter (λ r, is_ok r = true) rows) in
  fastest_q ← match ok_durations with
              | [] => Some None
              | _ => Some <$> Py.min_by float_duration rows
              end;
  slowest_q ← match ok_durations with
              | [] => Some None
              | _ => Some <$> Py.max_by float_duration rows
              end;
  min_d ← match durations with
          | [] => Some 0%Q
          | _ => m ← Py.min durations; Some (Py.round m 2)
          end;
  max_d ← match durations with
          | [] => Some 0%Q
          | _ => m ← Py.max durations; Some (Py.round m 2)
          end;
  med_d ← match durations with
          | [] => Some 0%Q
          | _ => m ← Py.median durations; Some (Py.round m 2)
          end;
  Some {|
    total_queries := Z.of_nat (length rows);
    ok_count := ok_count;
    error_count := err_count;
    total_duration_ms := Py.round total_ms 2;
    total_duration_s := Py.round (total_ms / 1000) 1;
    min_duration_ms := min_d;
    max_duration_ms := max_d;
    median_duration_ms := med_d;
    fastest_query := query_id <$> fastest_q;
    slowest_query := query_id <$> slowest_q;
  |}.

(** The document handed to [json.dump], with the path it is written to.
    [rows[0]] raises [IndexError] on an empty sequence. *)
Definition write_meta_json (run_dir : string) (rows : list Row)
    (metadata : dict pyval) (schema bench_name : string) (sf : scale)
    (date_str : string) : option (string * Meta) :=
  res ← results_block rows;
  row0 ← rows !! 0%nat;
  let meta := {|
    benchmark := bench_name;
    schema := schema;
    date := date_str;
    scale_factor := sf;
    meta_run_ts := isoformat <$> run_ts row0;
    postgresql :=
      fold_left (λ d kv, dict_set (fst kv) (snd kv) d) (pg_settings metadata)
        [("version", get_default metadata "pg_version" (VStr ""));
         ("version_num", get_default metadata "pg_version_num" (VInt 0))];
    system :=
      [("hostname", get_default metadata "hostname" (VStr ""));
       ("os", get_default metadata "os" (VStr ""));
       ("arch", get_default metadata "arch" (VStr ""));
       ("cpu_count", get_default metadata "cpu_count" (VInt 0))];
    results := res;
  |} in
  Some (path_join run_dir "meta.json", meta).

(** ** Number formatting *)

(** Left-pad with ["0"] up to width [w]. *)
Fixpoint zeros (n : nat) : string :=
  match n with
  | O => EmptyString
  | S n' => String "0" (zeros n')
  end.

Definition zfill (w : nat) (s : string) : string :=
  zeros (w - String.length s) +:+ s.

(** Drop the trailing ["0"] characters. *)
Fixpoint rstrip0 (s : string) : string :=
  match s with
  | EmptyString => EmptyString
  | String c s' =>
      let r := rstrip0 s' in
      if Ascii.eqb c "0" && String.eqb r EmptyString then EmptyString
      else String c r
  end.

(** [f"{x:.{nd}f}"]: fixed-point notation with [nd] decimals. *)
Definition format_f (x : Q) (nd : nat) : string :=
  let n := Py.round_half_even (Qabs x * inject_Z (10 ^ Z.of_nat nd)) in
  let s := zfill (S nd) (pretty n) in
  let k := (String.length s - nd)%nat in
  (if Py.Qltb x 0 then "-" else "")
  +:+ String.substring 0 k s
  +:+ (if (nd =? 0)%nat then "" else "." +:+ String.substring k nd s).

(** Decimal exponent of a positive [x] outside [1e-4, 1e16): the [e]
    with [10^e <= x < 10^(e+1)], searched upwards from [16] or
    downwards from [-5]. *)
Fixpoint exp_up (fuel : nat) (x : Q) (e : Z) : Z :=
  match fuel with
  | O => e
  | S f => if Qle_bool (10 ^ (e + 1)) x then exp_up f x (e + 1) else e
  end.

Fixpoint exp_down (fuel : nat) (x : Q) (e : Z) : Z :=
  match fuel with
  | O => e
  | S f => if Py.Qltb x (10 ^ e) then exp_down f x (e - 1) else e
  end.

Definition in_fixed_range (x : Q) : bool :=
  Qle_bool (1 # 10000) x && Py.Qltb x (10 ^ 16).

(** Positional notation of [x] with [1e-4 <= x < 1e16]: a float carries at
    most 17 significant digits, hence at most 20 decimals here. *)
Definition repr_fixed (x : Q) : string :=
  let ip := Qfloor x in
  let fp := Qfloor ((x - inject_Z ip) * inject_Z (10 ^ 20)) in
  let fs := rstrip0 (zfill 20 (pretty fp)) in
  pretty ip +:+ "." +:+ (if String.eqb fs "" then "0" else fs).

(** Scientific notation [d.ddde+XX] of a positive [x] outside that range. *)
Definition repr_sci (x : Q) : string :=
  let e :=
    if Qle_bool (10 ^ 16) x
    then exp_up (Z.to_nat (Z.log2 (Qnum x))) x 16
    else exp_down (Z.to_nat (Z.log2 (Zpos (Qden x)))) x (-5) in
  let m := Qfloor (x / 10 ^ e * inject_Z (10 ^ 16)) in
  let ds := pretty m in
  let rest := rstrip0 (String.substring 1 16 ds) in
  String.substring 0 1 ds
  +:+ (if String.eqb rest "" then "" else "." +:+ rest)
  +:+ "e" +:+ (if (e <? 0)%Z then "-" else "+") +:+ zfill 2 (pretty (Z.abs e)).

(** [str(x)] / [repr(x)] of a float: positional when the decimal exponent
    is in [-4, 16), scientific otherwise. *)
Definition float_repr (x : Q) : string :=
  if Qeq_bool x 0 then "0.0"
  else
    (if Py.Qltb x 0 then "-" else "")
    +:+ (if in_fixed_range (Qabs x) then repr_fixed (Qabs x)
         else repr_sci (Qabs x)).

(** ** [write_summary_csv] *)

(** The [csv] writer with the default (excel) dialect: a field holding
    the delimiter, the quote character, CR or LF is enclosed in quotes,
    with every quote character inside it doubled; fields are joined by
    commas and the record ends with CRLF. *)
Definition dquote : ascii := ascii_of_nat 34.
Definition cr : ascii := ascii_of_nat 13.
Definition lf : ascii := ascii_of_nat 10.

Definition csv_special (c : ascii) : bool :=
  Ascii.eqb c "," || Ascii.eqb c dquote || Ascii.eqb c cr || Ascii.eqb c lf.

Fixpoint has_special (s : string) : bool :=
  match s with
  | EmptyString => false
  | String c s' => csv_special c || has_special s'
  end.

Fixpoint double_quotes (s : string) : string :=
  match s with
  | EmptyString => EmptyString
  | String c s' =>
      if Ascii.eqb c dquote then String c (String c (double_quotes s'))
      else String c (double_quotes s')
  end.

Definition csv_field (s : string) : string :=
  if has_special s
  then String dquote (double_quotes s) +:+ String dquote EmptyString
  else s.

Fixpoint join (sep : string) (xs : list string) : string :=
  match xs with
  | [] => EmptyString
  | [x] => x
  | x :: xs' => x +:+ sep +:+ join sep xs'
  end.

Definition csv_record (fields : list string) : string :=
  join "," (map csv_field fields) +:+ String cr (String lf EmptyString).

Definition fieldnames : list string :=
  ["query_id"; "status"; "duration_ms"; "rows_returned"].

(** The field values of one [writerow] call, in [fieldnames] order. *)
Definition csv_row (r : Row) : list string :=
  [pretty (query_id r); status r; float_repr (float_duration r);
   pretty (rows_returned r)].

(** The records handed to the writer: the header, then one per row. *)
Definition summary_records (rows : list Row) : list (list string) :=
  fieldnames :: map csv_row rows.

(** Path and content of [summary.csv]. *)
Definition write_summary_csv (run_dir : string) (rows : list Row)
    : string * string :=
  (path_join run_dir "summary.csv",
   fold_left (λ out rec, out +:+ csv_record rec) (summary_records rows) "").

(** ** [create_chart] *)

Record Bar := { bar_height : Q; bar_color : string }.

Record AxText := { text_x : nat; text_y : Q; text_s : string }.

(** What the calls on the axes leave behind.  [ylim = None] means that
    [set_ylim] was never called: the y-range is then matplotlib's
    autoscale over the bars. *)
Record Chart := {
  fig_w : Q;
  ylim : option (Q * Q);
  bars : list Bar;
  texts : list AxText;
  xticklabels : list string;
  title : string;
  legend : list (string * string);
  date_note : string;
}.

(** [int(n * 0.95)] *)
Definition p95_index (n : nat) : nat :=
  Z.to_nat (Qfloor (inject_Z (Z.of_nat n) * (95 # 100))).

(** [sorted_d[int(len(sorted_d) * 0.95)] if len(sorted_d) >= 5
     else max(sorted_d)]; [None] stands for [IndexError] / [ValueError]. *)
Definition percentile95 (durations : list Q) : option Q :=
  let sorted_d := Py.sorted durations in
  if (5 <=? length sorted_d)%nat
  then sorted_d !! p95_index (length sorted_d)
  else Py.max sorted_d.

(** The value of [y_cap] after the outlier test; the inner [None] is
    Python's [None]. *)
Definition y_cap_of (durations : list Q) : option (option Q) :=
  p95 ← percentile95 durations;
  mx ← Py.max durations;
  Some (if Py.Qltb (3 * p95) mx && Py.Qltb 0 p95
        then Some (p95 * 2)%Q else None).

(** [if y_cap:] *)
Definition truthy (y_cap : option Q) : option Q :=
  match y_cap with
  | Some c => if Qeq_bool c 0 then None else Some c
  | None => None
  end.

(** [f"{d/1000:.0f}s" if d >= 1000 else f"{d:.0f}"] *)
Definition clip_label (d : Q) : string :=
  if Qle_bool 1000 d then format_f (d / 1000) 0 +:+ "s" else format_f d 0.

Definition color_of (s : string) : string :=
  if String.eqb s "OK" then "#4CAF50" else "#F44336".

(** Height of the bar for duration [d] once the clipping loop has run. *)
Definition bar_of (cap : option Q) (d : Q) (color : string) : Bar :=
  match cap with
  | Some c =>
      if Py.Qltb c d
      then {| bar_height := c * (105 # 100); bar_color := color |}
      else {| bar_height := d; bar_color := color |}
  | None => {| bar_height := d; bar_color := color |}
  end.

(** The [ax.text] calls of the clipping loop, from index [i] on. *)
Fixpoint clip_texts (c : Q) (i : nat) (durations : list Q) : list AxText :=
  match durations with
  | [] => []
  | d :: ds =>
      if Py.Qltb c d
      then {| text_x := i; text_y := c * (107 # 100); text_s := clip_label d |}
           :: clip_texts c (S i) ds
      else clip_texts c (S i) ds
  end.

Definition Qmax (x y : Q) : Q := if Py.Qltb x y then y else x.

Definition create_chart (run_dir : string) (rows : list Row)
    (bench_name : string) (sf : scale) (date_str : string)
    : option (string * Chart) :=
  let query_ids := map query_id rows in
  let durations := map float_duration rows in
  let statuses := map status rows in
  let colors := map color_of statuses in
  let fig_w := Qmax 14 (inject_Z (Z.of_nat (length query_ids)) * (18 # 100)) in
  y_cap ← y_cap_of durations;
  let cap := truthy y_cap in
  let total_ms := Py.sum durations in
  let total_str :=
    if Qle_bool 60000 total_ms then format_f (total_ms / 1000) 1 +:+ "s"
    else format_f total_ms 0 +:+ "ms" in
  let ok_count := length (filter (λ s, s = "OK") statuses) in
  let err_count := (length statuses - ok_count)%nat in
  let title :=
    bench_name +:+ " SF=" +:+ str_scale sf +:+ " — " +:+ pretty ok_count
    +:+ "/" +:+ pretty (length query_ids) +:+ " OK"
    +:+ (if (err_count =? 0)%nat then ""
         else ", " +:+ pretty err_count +:+ " errors")
    +:+ "  |  Total: " +:+ total_str in
  Some (path_join run_dir "queries.png",
        {| fig_w := fig_w;
           ylim := (λ c, (0, c * (112 # 100))%Q) <$> cap;
           bars := zip_with (bar_of cap) durations colors;
           texts := match cap with
                    | Some c => clip_texts c 0 durations
                    | None => []
                    end;
           xticklabels := map pretty query_ids;
           title := title;
           legend := ("#4CAF50", "OK")
                     :: (if (err_count =? 0)%nat then []
                         else [("#F44336", "ERROR")]);
           date_note := date_str |}).

(** ** The filesystem *)

(** What a file holds, as far as the report generator can tell:
    [Json m] is a file from which [json.load] returns the document [m];
    [Text s] is text that is not a JSON document; [Unreadable] is a file
    that [open] refuses. *)
Inductive content :=
| Json (m : Meta)
| Text (s : string)
| Unreadable.

Inductive node :=
| Dir
| File (c : content).

(** Paths that exist, with what they are. *)
Abbreviation filesystem := (gmap string node).

(** [os.path.exists(p)] *)
Definition path_exists (fs : filesystem) (p : string) : bool :=
  bool_decide (is_Some (fs !! p)).

(** The proper ancestors of [p]: its non-empty prefixes that stop just
    before a ["/"].  [pre] is the part of the path already scanned. *)
Fixpoint ancestors_go (pre rest : string) : list string :=
  match rest with
  | EmptyString => []
  | String c rest' =>
      let tail := ancestors_go (pre +:+ String c EmptyString) rest' in
      if Ascii.eqb c "/" && negb (String.eqb pre "") then pre :: tail else tail
  end.

Definition ancestors (p : string) : list string := ancestors_go "" p.

Definition mkdir_if_missing (fs : filesystem) (p : string) : filesystem :=
  if path_exists fs p then fs else <[p := Dir]> fs.

(** [os.makedirs(p, exist_ok=True)]; failures of the operating system
    (permissions, a file in the way) are not modelled. *)
Definition makedirs (p : string) (fs : filesystem) : filesystem :=
  fold_left mkdir_if_missing (ancestors p ++ [p]) fs.

(** ** [make_run_dir] *)

(** [f"{run_dir}_{i}"] *)
Definition suffixed (run_dir : string) (i : nat) : string :=
  run_dir +:+ "_" +:+ pretty i.

(** The [while os.path.exists(f"{run_dir}_{i}"): i += 1] loop; [None]
    when [fuel] iterations did not reach its exit. *)
Fixpoint first_unused (fuel : nat) (fs : filesystem) (run_dir : string)
    (i : nat) : option nat :=
  match fuel with
  | O => None
  | S fuel' =>
      if path_exists fs (suffixed run_dir i)
      then first_unused fuel' fs run_dir (S i)
      else Some i
  end.

(** The returned path and the filesystem afterwards.  The loop is given
    one more iteration than there are paths in the filesystem. *)
Definition make_run_dir (fs : filesystem) (base_dir date_str : string)
    (sf : scale) : option (string * filesystem) :=
  let dirname := date_str +:+ "_sf" +:+ str_scale sf in
  let run_dir := path_join base_dir dirname in
  run_dir ← (if path_exists fs run_dir
             then i ← first_unused (S (size fs)) fs run_dir 2;
                  Some (suffixed run_dir i)
             else Some run_dir);
  Some (run_dir, makedirs run_dir fs).

(** ** [update_readme] *)

Definition CONFIGS : dict (string * Z) :=
  [("tpcds", ("TPC-DS", 99)); ("tpch", ("TPC-H", 22))].

(** [fnmatch] for patterns made of literal characters, [?] and [*]. *)
Fixpoint fnmatch (pat : string) : string → bool :=
  match pat with
  | EmptyString => λ name, String.eqb name ""
  | String pc pat' =>
      if Ascii.eqb pc "*" then
        fix star (name : string) : bool :=
          fnmatch pat' name
          || match name with
             | EmptyString => false
             | String _ name' => star name'
             end
      else
        λ name,
          match name with
          | EmptyString => false
          | String c name' =>
              (Ascii.eqb pc "?" || Ascii.eqb pc c) && fnmatch pat' name'
          end
  end.

Fixpoint has_slash (s : string) : bool :=
  match s with
  | EmptyString => false
  | String c s' => Ascii.eqb c "/" || has_slash s'
  end.

Fixpoint strip_prefix (pre s : string) : option string :=
  match pre, s with
  | EmptyString, _ => Some s
  | String a pre', String b s' =>
      if Ascii.eqb a b then strip_prefix pre' s' else None
  | String _ _, EmptyString => None
  end.

(** [os.path.basename(p)] *)
Fixpoint basename (p : string) : string :=
  match p with
  | EmptyString => EmptyString
  | String c p' => if has_slash p then basename p' else p
  end.

Definition run_pattern : string := "????-??-??_sf*".

(** Whether [glob] reports [p] for the pattern
    [os.path.join(base_dir, "????-??-??_sf*")]: an entry of [base_dir]
    whose name matches and does not start with a dot. *)
Definition is_run_entry (base_dir p : string) : bool :=
  match strip_prefix (path_join base_dir "") p with
  | Some name =>
      negb (has_slash name) && negb (String.prefix "." name)
      && fnmatch run_pattern name
  | None => false
  end.

(** [sorted(glob.glob(pattern), reverse=True)] *)
Definition run_dirs_of (fs : filesystem) (base_dir : string) : list string :=
  Py.sorted_by (λ a b, String.leb b a)
    (filter (λ p, is_run_entry base_dir p = true) (elements (dom fs))).

(** [json.load(open(path))] on an existing path; [None] stands for the
    exception raised by [open] or by the parser. *)
Definition json_load (n : node) : option Meta :=
  match n with
  | File (Json m) => Some m
  | File (Text _) | File Unreadable | Dir => None
  end.

(** The scan loop: a run directory without [meta.json] is passed over;
    one whose [meta.json] exists is loaded. *)
Fixpoint load_runs (fs : filesystem) (run_dirs : list string)
    : option (list (string * Meta)) :=
  match run_dirs with
  | [] => Some []
  | d :: ds =>
      let meta_path := path_join d "meta.json" in
      match fs !! meta_path with
      | None => load_runs fs ds
      | Some n =>
          m ← json_load n;
          rest ← load_runs fs ds;
          Some ((basename d, m) :: rest)
      end
  end.

(** [s.split(",")[0] if "," in s else s] *)
Fixpoint before_comma (s : string) : string :=
  match s with
  | EmptyString => EmptyString
  | String c s' => if Ascii.eqb c "," then EmptyString else String c (before_comma s')
  end.

Definition nl : string := String lf EmptyString.

Definition all_runs_line (run : string * Meta) : string :=
  let dirname := fst run in
  let meta := snd run in
  let r := results meta in
  let t := format_f (total_duration_s r) 1 +:+ "s" in
  "| [" +:+ date meta +:+ "](./" +:+ dirname +:+ "/) | "
  +:+ str_scale (scale_factor meta) +:+ " | "
  +:+ t +:+ " | " +:+ pretty (ok_count r) +:+ " | "
  +:+ pretty (error_count r) +:+ " | "
  +:+ "[csv](./" +:+ dirname +:+ "/summary.csv) [chart](./" +:+ dirname
  +:+ "/queries.png) |".

(** The lines of the index; [None] when a lookup in the latest document
    raises. *)
Definition readme_lines (bench_name : string) (runs : list (string * Meta))
    (latest_dir : string) (latest : Meta) : option (list string) :=
  let res := results latest in
  let total_str := format_f (total_duration_s res) 1 +:+ "s" in
  let ratio := pretty (ok_count res) +:+ "/" +:+ pretty (total_queries res) in
  pg_ver ← match dict_get (postgresql latest) "version" with
           | Some (VStr v) => Some v
           | _ => None
           end;
  let pg_short := before_comma pg_ver in
  Some (
    ["# " +:+ bench_name +:+ " Benchmark Results" +:+ nl;
     "## Latest Run" +:+ nl;
     "**Date:** " +:+ date latest +:+ " | **Scale Factor:** "
       +:+ str_scale (scale_factor latest) +:+ " | **Total:** " +:+ total_str
       +:+ " | **Status:** " +:+ ratio +:+ " OK" +:+ nl;
     "![Latest benchmark results](./" +:+ latest_dir +:+ "/queries.png)" +:+ nl;
     "| Metric | Value |";
     "|--------|-------|";
     "| PostgreSQL | " +:+ pg_short +:+ " |";
     "| Scale Factor | " +:+ str_scale (scale_factor latest) +:+ " |";
     "| Total Time | " +:+ total_str +:+ " |";
     "| Queries OK | " +:+ ratio +:+ " |"]
    ++ match fastest_query res with
       | Some fq =>
           ["| Fastest | Q" +:+ pretty fq +:+ " ("
              +:+ format_f (min_duration_ms res) 0 +:+ "ms) |";
            "| Slowest | Q" +:+ from_option pretty "None" (slowest_query res)
              +:+ " (" +:+ format_f (max_duration_ms res) 0 +:+ "ms) |";
            "| Median | " +:+ format_f (median_duration_ms res) 0 +:+ "ms |"]
       | None => []
       end
    ++ [""]
    ++ (if (1 <? length runs)%nat
        then ["## All Runs" +:+ nl;
              "| Date | SF | Total | OK | Errors | Details |";
              "|------|----|-------|----|--------|---------|"]
             ++ map all_runs_line runs ++ [""]
        else [])
    ++ ["---"; "*Generated by `report.py`*"; ""]).

(** The filesystem after [update_readme]; [None] when it raises. *)
Definition update_readme (fs : filesystem) (base_dir schema : string)
    : option filesystem :=
  cfg ← dict_get CONFIGS schema;
  let bench_name := fst cfg in
  runs ← load_runs fs (run_dirs_of fs base_dir);
  match runs with
  | [] => Some fs
  | (latest_dir, latest) :: _ =>
      lines ← readme_lines bench_name runs latest_dir latest;
      Some (<[path_join base_dir "README.md" := File (Text (join nl lines))]> fs)
  end.

(** ** Scenarios and derived notions used in the statements *)

(** Scenario A of the specification: two OK rows and one ERROR row. *)
Definition scenario_A : list Row :=
  [ {| query_id := 1; status := "OK"; duration_ms := 241 # 2;
       rows_returned := 100; run_ts := None |};
    {| query_id := 2; status := "OK"; duration_ms := 95;
       rows_returned := 50; run_ts := None |};
    {| query_id := 3; status := "ERROR"; duration_ms := 0;
       rows_returned := 0; run_ts := None |} ].

(** The OK rows of a sequence. *)
Definition ok_rows (rows : list Row) : list Row :=
  filter (λ r, is_ok r = true) rows.

(** The stats block that the specification's scenario A announces. *)
Definition scenario_A_claimed (res : Results) : Prop :=
  total_queries res = 3 ∧ ok_count res = 2 ∧ error_count res = 1
  ∧ (min_duration_ms res == 95)%Q ∧ (max_duration_ms res == 241 # 2)%Q
  ∧ (median_duration_ms res == 431 # 4)%Q
  ∧ fastest_query res = Some 2 ∧ slowest_query res = Some 1.

(** Twenty queries of 100 ms and one of 20 s. *)
Definition scenario_outlier : list Row :=
  map (λ i, {| query_id := i; status := "OK"; duration_ms := 100;
               rows_returned := 1; run_ts := None |})
      (seqZ 1 20)
  ++ [ {| query_id := 21; status := "OK"; duration_ms := 20000;
          rows_returned := 1; run_ts := None |} ].

Definition is_digit (c : ascii) : bool :=
  (48 <=? nat_of_ascii c)%nat && (nat_of_ascii c <=? 57)%nat.

(** Positional decimal notation: digits, a point and a sign only. *)
Definition decimal_char (c : ascii) : bool :=
  is_digit c || Ascii.eqb c "." || Ascii.eqb c "-".

Fixpoint all_chars (P : ascii → bool) (s : string) : bool :=
  match s with
  | EmptyString => true
  | String c s' => P c && all_chars P s'
  end.

Definition decimal_notation (s : string) : bool := all_chars decimal_char s.

(** A row whose duration is [1e-05]. *)
Definition tiny_duration_row : Row :=
  {| query_id := 7; status := "OK"; duration_ms := 1 # 100000;
     rows_returned := 1; run_ts := None |}.

(** The document written for scenario A. *)
Definition meta_A : Meta := {|
  benchmark := "TPC-DS";
  schema := "tpcds";
  date := "2026-02-27";
  scale_factor := SfInt 1;
  meta_run_ts := None;
  postgresql := [("version", VStr "PostgreSQL 17.2, compiled by gcc");
                 ("version_num", VInt 170002)];
  system := [("hostname", VStr "bench"); ("os", VStr "Linux");
             ("arch", VStr "x86_64"); ("cpu_count", VInt 8)];
  results := {|
    total_queries := 3; ok_count := 2; error_count := 1;
    total_duration_ms := 431 # 2; total_duration_s := 1 # 5;
    min_duration_ms := 0; max_duration_ms := 241 # 2;
    median_duration_ms := 95;
    fastest_query := Some 3; slowest_query := Some 1 |};
|}.


(** One complete run, and a later run directory without [meta.json]. *)
Definition fs_partial : filesystem :=
  {[ "/bench" := Dir;
     "/bench/2026-02-27_sf1" := Dir;
     "/bench/2026-02-27_sf1/meta.json" := File (Json meta_A);
     "/bench/2026-02-28_sf1" := Dir ]}.


(** The characters of a number as [str] writes it. *)
Definition number_char (c : ascii) : bool :=
  is_digit c || Ascii.eqb c "." || Ascii.eqb c "-" || Ascii.eqb c "e"
  || Ascii.eqb c "+".

(** ** Schema detection *)

(** [needle in s] *)
Fixpoint contains (needle s : string) : bool :=
  String.prefix needle s
  || match s with
     | EmptyString => false
     | String _ s' => contains needle s'
     end.

(** [s.lower()], on the ASCII letters; the other bytes stay (no
    lower-cased character outside ASCII contains an ASCII letter of the
    schema names). *)
Definition lower_char (c : ascii) : ascii :=
  let n := nat_of_ascii c in
  if (65 <=? n)%nat && (n <=? 90)%nat then ascii_of_nat (n + 32) else c.

Fixpoint lower (s : string) : string :=
  match s with
  | EmptyString => EmptyString
  | String c s' => String (lower_char c) (lower s')
  end.

(** [s.split("/")] *)
Fixpoint split_slash (s : string) : list string :=
  match s with
  | EmptyString => [EmptyString]
  | String c s' =>
      if Ascii.eqb c "/" then EmptyString :: split_slash s'
      else match split_slash s' with
           | comp :: comps => String c comp :: comps
           | [] => [String c EmptyString]
           end
  end.

(** One step of the loop of [posixpath.normpath] over the components. *)
Definition norm_step (initial_slashes : nat) (new_comps : list string)
    (comp : string) : list string :=
  if String.eqb comp "" || String.eqb comp "." then new_comps
  else if negb (String.eqb comp "..")
          || ((initial_slashes =? 0)%nat && bool_decide (new_comps = []))
          || bool_decide (last new_comps = Some "..")
  then new_comps ++ [comp]
  else removelast new_comps.

(** [os.path.normpath(path)] (POSIX). *)
Definition normpath (path : string) : string :=
  if String.eqb path "" then "."
  else
    let initial_slashes :=
      if String.prefix "/" path
      then if String.prefix "//" path && negb (String.prefix "///" path)
           then 2%nat else 1%nat
      else 0%nat in
    let comps := fold_left (norm_step initial_slashes) (split_slash path) [] in
    let path := join "/" comps in
    let path :=
      match initial_slashes with
      | 0%nat => path
      | 1%nat => "/" +:+ path
      | _ => "//" +:+ path
      end in
    if String.eqb path "" then "." else path.

(** [os.path.abspath(path)], with the working directory [cwd]. *)
Definition abspath (cwd path : string) : string :=
  normpath (path_join cwd path).

Fixpoint only_slashes (s : string) : bool :=
  match s with
  | EmptyString => true
  | String c s' => Ascii.eqb c "/" && only_slashes s'
  end.

(** [s.rstrip("/")] *)
Fixpoint rstrip_slash (s : string) : string :=
  match s with
  | EmptyString => EmptyString
  | String c s' =>
      let r := rstrip_slash s' in
      if Ascii.eqb c "/" && String.eqb r EmptyString then EmptyString
      else String c r
  end.

(** [os.path.dirname(p)] (POSIX). *)
Definition dirname (p : string) : string :=
  let head :=
    String.substring 0 (String.length p - String.length (basename p)) p in
  if negb (String.eqb head "") && negb (only_slashes head)
  then rstrip_slash head else head.

(** [detect_schema(script_path)], run in the working directory [cwd]. *)
Definition detect_schema (cwd script_path : string) : option string :=
  let abspath := lower (abspath cwd script_path) in
  if contains "tpcds" abspath then Some "tpcds"
  else if contains "tpch" abspath then Some "tpch"
  else None.

(** ** The data source *)

(** The parsed command line ([parse_args] is argparse's work). *)
Record Args := {
  arg_dbname : option string;
  arg_host : option string;
  arg_port : option string;
  arg_user : option string;
  arg_schema : option string;
  arg_sf : option Z;
  arg_date : option string;
  arg_outdir : option string;
}.

(** The value of [x] in [if x:] / [x or y], for an optional string. *)
Definition nonempty (o : option string) : option string :=
  match o with
  | Some s => if String.eqb s "" then None else Some s
  | None => None
  end.

(** The keyword arguments that [connect_db] passes to
    [psycopg2.connect]. *)
Definition connect_params (args : Args) : dict string :=
  let add k o params :=
    match nonempty o with
    | Some v => dict_set k v params
    | None => params
    end in
  add "user" (arg_user args)
    (add "port" (arg_port args)
       (add "host" (arg_host args)
          (add "dbname" (arg_dbname args) []))).

(** An open connection: what each statement of the report generator
    returns; [None] stands for the exception psycopg2 raises. *)
Record Connection := {
  (** the rows of [SELECT query_id, status, duration_ms, rows_returned,
      run_ts FROM <schema>.bench_summary ORDER BY query_id] *)
  bench_summary : string → option (list Row);
  (** [SELECT version()] *)
  server_version : option string;
  (** [SHOW <guc>] *)
  show : string → option string;
  (** the first row, if any, of [SELECT value FROM <schema>.config
      WHERE key = 'scale_factor'] *)
  config_scale_factor : string → option (option pyval);
}.

(** [fetch_bench_data(conn, schema)]: the rows, zipped with the names
    of the five selected columns. *)
Definition fetch_bench_data (conn : Connection) (schema : string)
    : option (list Row) :=
  bench_summary conn schema.

(** Whitespace that [int] strips. *)
Definition is_space (c : ascii) : bool :=
  let n := nat_of_ascii c in
  (n =? 32)%nat || ((9 <=? n)%nat && (n <=? 13)%nat)
  || ((28 <=? n)%nat && (n <=? 31)%nat).

Fixpoint lstrip (s : string) : string :=
  match s with
  | EmptyString => EmptyString
  | String c s' => if is_space c then lstrip s' else s
  end.

Fixpoint rstrip (s : string) : string :=
  match s with
  | EmptyString => EmptyString
  | String c s' =>
      let r := rstrip s' in
      if is_space c && String.eqb r EmptyString then EmptyString
      else String c r
  end.

(** Decimal digits, with single underscores allowed between digits. *)
Fixpoint parse_digits (s : string) (acc : Z) (after_digit : bool) : option Z :=
  match s with
  | EmptyString => if after_digit then Some acc else None
  | String c s' =>
      if is_digit c
      then parse_digits s' (10 * acc + Z.of_nat (nat_of_ascii c - 48)) true
      else if Ascii.eqb c "_" && after_digit
      then match s' with
           | String c' _ => if is_digit c' then parse_digits s' acc false
                            else None
           | EmptyString => None
           end
      else None
  end.

(** [int(s)] on a string of ASCII characters; [None] stands for
    [ValueError]. *)
Definition py_int (s : string) : option Z :=
  match rstrip (lstrip s) with
  | String "-" digits => Z.opp <$> parse_digits digits 0 false
  | String "+" digits => parse_digits digits 0 false
  | digits => parse_digits digits 0 false
  end.

(** What the machine says about itself. *)
Record Host := {
  h_script_file : string;        (* [__file__] *)
  h_cwd : string;                (* [os.getcwd()] *)
  h_today : string;              (* [datetime.date.today().isoformat()] *)
  h_hostname : string;           (* [socket.gethostname()] *)
  h_platform : string;           (* [platform.platform()] *)
  h_machine : string;            (* [platform.machine()] *)
  h_cpu_count : option Z;        (* [os.cpu_count()] *)
  (* [psycopg2.connect] on the keyword arguments: a connection, or the
     text of the exception *)
  h_connect : dict string → string + Connection;
  (* the bytes of the PNG image that [fig.savefig] writes for a chart *)
  h_savefig : Chart → string;
}.

Definition gucs : list string :=
  ["shared_buffers"; "work_mem"; "effective_cache_size";
   "max_parallel_workers_per_gather"; "max_connections"].

(** [int(row[0]) if row and row[0] else None] *)
Definition scale_factor_of (row : option pyval) : option pyval :=
  match row with
  | Some (VStr s) => if String.eqb s "" then Some VNone else VInt <$> py_int s
  | Some (VInt n) => Some (if (n =? 0)%Z then VNone else VInt n)
  | Some VNone | None => Some VNone
  end.

(** [fetch_metadata(conn, schema)]; [None] when a statement or [int]
    raises. *)
Definition fetch_metadata (host : Host) (conn : Connection) (schema : string)
    : option (dict pyval) :=
  version ← server_version conn;
  let meta := dict_set "pg_version" (VStr version) [] in
  num ← show conn "server_version_num" ≫= py_int;
  let meta := dict_set "pg_version_num" (VInt num) meta in
  meta ← foldl (λ acc guc,
                  meta ← acc; v ← show conn guc;
                  Some (dict_set ("pg_" +:+ guc) (VStr v) meta))
               (Some meta) gucs;
  row ← config_scale_factor conn schema;
  sf ← scale_factor_of row;
  let meta := dict_set "scale_factor" sf meta in
  let meta := dict_set "hostname" (VStr (h_hostname host)) meta in
  let meta := dict_set "os" (VStr (h_platform host)) meta in
  let meta := dict_set "arch" (VStr (h_machine host)) meta in
  Some (dict_set "cpu_count"
          (match h_cpu_count host with Some n => VInt n | None => VNone end)
          meta).

(** ** [main] *)

(** How a run of the program ends: [main] returns, [sys.exit(code)], or
    an exception nobody catches. *)
Inductive ending :=
| Returned
| Exited (code : Z)
| Raised.

Record Outcome := {
  ending_of : ending;
  stdout : list string;
  stderr : list string;
  files : filesystem;
}.

(** [args.sf or metadata.get("scale_factor") or "unknown"] *)
Definition choose_sf (args : Args) (metadata : dict pyval) : scale :=
  let stored :=
    match dict_get metadata "scale_factor" with
    | Some (VInt n) => if (n =? 0)%Z then SfStr "unknown" else SfInt n
    | Some (VStr s) => if String.eqb s "" then SfStr "unknown" else SfStr s
    | Some VNone | None => SfStr "unknown"
    end in
  match arg_sf args with
  | Some n => if (n =? 0)%Z then stored else SfInt n
  | None => stored
  end.

(** [args.schema or detect_schema(__file__)], kept only when it is a
    configured benchmark. *)
Definition resolve_schema (host : Host) (args : Args)
    : option (string * (string * Z)) :=
  schema ← match nonempty (arg_schema args) with
           | Some s => Some s
           | None => detect_schema (h_cwd host) (h_script_file host)
           end;
  cfg ← dict_get CONFIGS schema;
  Some (schema, cfg).

(** The closing line of the report. *)
Definition summary_line (rows : list Row) : string :=
  let durations := map float_duration rows in
  let total_ms := Py.sum durations in
  let total_str :=
    if Qle_bool 1000 total_ms then format_f (total_ms / 1000) 1 +:+ "s"
    else format_f total_ms 0 +:+ "ms" in
  let ok := length (filter (λ r, is_ok r = true) rows) in
  nl +:+ "Total: " +:+ total_str +:+ "  (" +:+ pretty ok +:+ "/"
  +:+ pretty (length rows) +:+ " OK)".

(** The part of [main] that follows the fetches. *)
Definition generate_report (host : Host) (args : Args) (schema : string)
    (bench_name : string) (rows : list Row) (metadata : dict pyval)
    (fs : filesystem) : Outcome :=
  let sf := choose_sf args metadata in
  let date_str := default (h_today host) (nonempty (arg_date args)) in
  let base_dir :=
    default (dirname (abspath (h_cwd host) (h_script_file host)))
            (nonempty (arg_outdir args)) in
  match make_run_dir fs base_dir date_str sf with
  | None => {| ending_of := Raised; stdout := []; stderr := []; files := fs |}
  | Some (run_dir, fs1) =>
      let run_name := basename run_dir in
      let out1 :=
        [bench_name +:+ " benchmark report";
         "  Schema: " +:+ schema +:+ "  SF: " +:+ str_scale sf +:+ "  Date: "
           +:+ date_str;
         "  Queries: " +:+ pretty (length rows)] in
      let csv := write_summary_csv run_dir rows in
      let fs2 := <[fst csv := File (Text (snd csv))]> fs1 in
      let out2 := out1 ++ ["  wrote " +:+ run_name +:+ "/summary.csv"] in
      match create_chart run_dir rows bench_name sf date_str with
      | None =>
          {| ending_of := Raised; stdout := out2; stderr := []; files := fs2 |}
      | Some (png_path, chart) =>
          let fs3 := <[png_path := File (Text (h_savefig host chart))]> fs2 in
          let out3 := out2 ++ ["  wrote " +:+ run_name +:+ "/queries.png"] in
          match write_meta_json run_dir rows metadata schema bench_name sf
                  date_str with
          | None =>
              {| ending_of := Raised; stdout := out3; stderr := [];
                 files := fs3 |}
          | Some (meta_path, meta) =>
              let fs4 := <[meta_path := File (Json meta)]> fs3 in
              let out4 := out3 ++ ["  wrote " +:+ run_name +:+ "/meta.json"] in
              match update_readme fs4 base_dir schema with
              | None =>
                  {| ending_of := Raised; stdout := out4; stderr := [];
                     files := fs4 |}
              | Some fs5 =>
                  {| ending_of := Returned;
                     stdout := out4 ++ ["  updated README.md";
                                        summary_line rows];
                     stderr := []; files := fs5 |}
              end
          end
      end
  end.

(** [main()] of [report.py], started with the parsed arguments [args] on
    the machine [host] and the filesystem [fs]. *)
Definition main (host : Host) (args : Args) (fs : filesystem) : Outcome :=
  match resolve_schema host args with
  | None =>
      {| ending_of := Exited 1; stdout := [];
         stderr := ["ERROR: Cannot detect benchmark type. Use --schema tpcds|tpch"];
         files := fs |}
  | Some (schema, cfg) =>
      match h_connect host (connect_params args) with
      | inl e =>
          {| ending_of := Exited 1; stdout := [];
             stderr := ["ERROR: Cannot connect to PostgreSQL: " +:+ e];
             files := fs |}
      | inr conn =>
          match fetch_bench_data conn schema with
          | None =>
              {| ending_of := Raised; stdout := []; stderr := []; files := fs |}
          | Some [] =>
              {| ending_of := Exited 1; stdout := [];
                 stderr := ["ERROR: No data in " +:+ schema
                            +:+ ".bench_summary. Run SELECT " +:+ schema
                            +:+ ".bench() first."];
                 files := fs |}
          | Some rows =>
              match fetch_metadata host conn schema with
              | None =>
                  {| ending_of := Raised; stdout := []; stderr := [];
                     files := fs |}
              | Some metadata =>
                  generate_report host args schema (fst cfg) rows metadata fs
              end
          end
      end
  end.

(** A machine and a server for the scenarios. *)
Definition conn_A : Connection := {|
  bench_summary := λ schema,
    if String.eqb schema "tpcds" then Some scenario_A else None;
  server_version := Some "PostgreSQL 17.2, compiled by gcc";
  show := λ guc,
    if String.eqb guc "server_version_num" then Some "170002"
    else if String.eqb guc "shared_buffers" then Some "4GB"
    else if String.eqb guc "work_mem" then Some "64MB"
    else if String.eqb guc "effective_cache_size" then Some "12GB"
    else if String.eqb guc "max_parallel_workers_per_gather" then Some "4"
    else if String.eqb guc "max_connections" then Some "100"
    else None;
  config_scale_factor := λ schema, Some (Some (VStr "1"));
|}.

Definition host_A : Host := {|
  h_script_file := "benchmarks/report.py";
  h_cwd := "/home/bench/pg_tpcds";
  h_today := "2026-02-28";
  h_hostname := "bench";
  h_platform := "Linux";
  h_machine := "x86_64";
  h_cpu_count := Some 8;
  h_connect := λ _, inr conn_A;
  h_savefig := λ _, "PNG";
|}.

Definition no_args : Args := {|
  arg_dbname := None; arg_host := None; arg_port := None; arg_user := None;
  arg_schema := None; arg_sf := None; arg_date := None; arg_outdir := None;
|}.

(** A machine whose server refuses the connection. *)
Definition host_down : Host := {|
  h_script_file := "benchmarks/report.py";
  h_cwd := "/home/bench/pg_tpcds";
  h_today := "2026-02-28";
  h_hostname := "bench";
  h_platform := "Linux";
  h_machine := "x86_64";
  h_cpu_count := Some 8;
  h_connect := λ _, inl "connection refused";
  h_savefig := λ _, "PNG";
|}.

(** * Properties *)

(** ** Facts about the builtins *)

Section PyFacts.

Lemma Qltb_lt (x y : Q) : Py.Qltb x y = true ↔ (x < y)%Q.
Proof. unfold Py.Qltb, Qlt. apply Z.ltb_lt. Qed.

Lemma Qltb_ge (x y : Q) : Py.Qltb x y = false ↔ (y <= x)%Q.
Proof. unfold Py.Qltb, Qle. rewrite Z.ltb_ge. reflexivity. Qed.

Context {A : Type} (key : A → Q).

(** The running minimum stays a member and is below everything seen. *)
Lemma min_from_spec (xs : list A) (best : A) :
  let m := Py.min_from key best xs in
  m ∈ best :: xs ∧ (key m <= key best)%Q ∧ ∀ x, x ∈ xs → (key m <= key x)%Q.
Proof.
  revert best. induction xs as [|x xs IH]; intros best; simpl.
  - split; [left|split; [apply Qle_refl|]]. intros x Hx. inversion Hx.
  - destruct (IH (if Py.Qltb (key x) (key best) then x else best))
      as (Hin & Hle & Hall).
    destruct (Py.Qltb (key x) (key best)) eqn:E.
    + apply Qltb_lt in E. split; [|split].
      * apply elem_of_cons in Hin as [->|Hin]; [right; left|by do 2 right].
      * eapply Qle_trans; [exact Hle|by apply Qlt_le_weak].
      * intros y [->|Hy]%elem_of_cons; auto.
    + apply Qltb_ge in E. split; [|split].
      * apply elem_of_cons in Hin as [->|Hin]; [left|by do 2 right].
      * exact Hle.
      * intros y [->|Hy]%elem_of_cons; auto.
        eapply Qle_trans; [exact Hle|exact E].
Qed.

Lemma max_from_spec (xs : list A) (best : A) :
  let m := Py.max_from key best xs in
  m ∈ best :: xs ∧ (key best <= key m)%Q ∧ ∀ x, x ∈ xs → (key x <= key m)%Q.
Proof.
  revert best. induction xs as [|x xs IH]; intros best; simpl.
  - split; [left|split; [apply Qle_refl|]]. intros x Hx. inversion Hx.
  - destruct (IH (if Py.Qltb (key best) (key x) then x else best))
      as (Hin & Hle & Hall).
    destruct (Py.Qltb (key best) (key x)) eqn:E.
    + apply Qltb_lt in E. split; [|split].
      * apply elem_of_cons in Hin as [->|Hin]; [right; left|by do 2 right].
      * eapply Qle_trans; [by apply Qlt_le_weak|exact Hle].
      * intros y [->|Hy]%elem_of_cons; auto.
    + apply Qltb_ge in E. split; [|split].
      * apply elem_of_cons in Hin as [->|Hin]; [left|by do 2 right].
      * exact Hle.
      * intros y [->|Hy]%elem_of_cons; auto.
        eapply Qle_trans; [exact E|exact Hle].
Qed.

Lemma min_by_spec (xs : list A) :
  xs ≠ [] →
  ∃ m, Py.min_by key xs = Some m ∧ m ∈ xs ∧ ∀ x, x ∈ xs → (key m <= key x)%Q.
Proof.
  destruct xs as [|x xs]; [done|]. intros _. simpl.
  destruct (min_from_spec xs x) as (Hin & Hle & Hall).
  eexists; split; [reflexivity|]. split; [exact Hin|].
  intros y [->|Hy]%elem_of_cons; auto.
Qed.

Lemma max_by_spec (xs : list A) :
  xs ≠ [] →
  ∃ m, Py.max_by key xs = Some m ∧ m ∈ xs ∧ ∀ x, x ∈ xs → (key x <= key m)%Q.
Proof.
  destruct xs as [|x xs]; [done|]. intros _. simpl.
  destruct (max_from_spec xs x) as (Hin & Hle & Hall).
  eexists; split; [reflexivity|]. split; [exact Hin|].
  intros y [->|Hy]%elem_of_cons; auto.
Qed.

End PyFacts.

Lemma min_spec (xs : list Q) :
  xs ≠ [] → ∃ m, Py.min xs = Some m ∧ m ∈ xs ∧ ∀ x, x ∈ xs → (m <= x)%Q.
Proof. apply (min_by_spec id). Qed.

Lemma max_spec (xs : list Q) :
  xs ≠ [] → ∃ m, Py.max xs = Some m ∧ m ∈ xs ∧ ∀ x, x ∈ xs → (x <= m)%Q.
Proof. apply (max_by_spec id). Qed.

(** Sorting permutes, and orders when the comparison is total and
    transitive. *)
Section Sorting.

Context {A : Type} (le : A → A → bool).

Lemma insert_by_perm (x : A) (xs : list A) :
  Py.insert_by le x xs ≡ₚ x :: xs.
Proof.
  induction xs as [|y ys IH]; simpl; [done|].
  destruct (le x y); [done|]. rewrite IH. apply Permutation_swap.
Qed.

Lemma sorted_by_perm (xs : list A) : Py.sorted_by le xs ≡ₚ xs.
Proof.
  induction xs as [|x xs IH]; simpl; [done|].
  rewrite insert_by_perm. by rewrite IH.
Qed.

Lemma length_sorted_by (xs : list A) : length (Py.sorted_by le xs) = length xs.
Proof. apply Permutation_length, sorted_by_perm. Qed.

Hypothesis le_total : ∀ x y, le x y = false → le y x = true.
Hypothesis le_trans : ∀ x y z, le x y = true → le y z = true → le x z = true.

Lemma insert_by_sorted (x : A) (xs : list A) :
  StronglySorted (λ a b, le a b = true) xs →
  StronglySorted (λ a b, le a b = true) (Py.insert_by le x xs).
Proof.
  induction 1 as [|y ys Hys IH Hall]; simpl.
  - repeat constructor.
  - destruct (le x y) eqn:E.
    + constructor; [by constructor|]. constructor; [done|].
      eapply Forall_impl; [exact Hall|]. intros z Hz. by eapply le_trans.
    + constructor; [exact IH|].
      rewrite insert_by_perm. constructor; [by apply le_total|done].
Qed.

Lemma sorted_by_sorted (xs : list A) :
  StronglySorted (λ a b, le a b = true) (Py.sorted_by le xs).
Proof.
  induction xs as [|x xs IH]; simpl; [constructor|by apply insert_by_sorted].
Qed.

End Sorting.


Lemma length_sorted (xs : list Q) : length (Py.sorted xs) = length xs.
Proof. apply length_sorted_by. Qed.


Lemma median_spec (ds : list Q) :
  ds ≠ [] →
  ∃ md, Py.median ds = Some md
    ∧ ((length ds mod 2 = 1)%nat → Py.sorted ds !! (length ds / 2)%nat = Some md)
    ∧ ((length ds mod 2 = 0)%nat →
       ∃ a b, Py.sorted ds !! (length ds / 2 - 1)%nat = Some a
            ∧ Py.sorted ds !! (length ds / 2)%nat = Some b
            ∧ md = ((a + b) / 2)%Q).
Proof.
  intros Hne. unfold Py.median. rewrite length_sorted.
  assert (0 < length ds)%nat as Hlen by (destruct ds; [done|simpl; lia]).
  destruct (Nat.eqb_spec (length ds) 0) as [E|_]; [lia|].
  assert (length ds / 2 < length ds)%nat as Hhalf
    by (apply Nat.div_lt; lia).
  destruct (lookup_lt_is_Some_2 (Py.sorted ds) (length ds / 2)%nat)
    as [b Hb]; [by rewrite length_sorted|].
  destruct (lookup_lt_is_Some_2 (Py.sorted ds) (length ds / 2 - 1)%nat)
    as [a Ha]; [rewrite length_sorted; lia|].
  destruct (Nat.eqb_spec (length ds mod 2) 1) as [E|E].
  - exists b. split; [done|]. split; [done|]. intros E'. exfalso. lia.
  - exists ((a + b) / 2)%Q. rewrite Ha, Hb.
    split; [done|]. split; [intros E'; exfalso; lia|]. intros _. by exists a, b.
Qed.

(** ** The results block *)

(** On a non-empty sequence nothing raises, and the block is the record
    below. *)
Lemma results_block_eq (rows : list Row) :
  rows ≠ [] →
  ∃ mn mx md fr sr,
    Py.min (map float_duration rows) = Some mn
    ∧ Py.max (map float_duration rows) = Some mx
    ∧ Py.median (map float_duration rows) = Some md
    ∧ Py.min_by float_duration rows = Some fr
    ∧ Py.max_by float_duration rows = Some sr
    ∧ results_block rows = Some {|
        total_queries := Z.of_nat (length rows);
        ok_count := Z.of_nat (length (ok_rows rows));
        error_count := Z.of_nat (length rows) - Z.of_nat (length (ok_rows rows));
        total_duration_ms := Py.round (Py.sum (map float_duration rows)) 2;
        total_duration_s :=
          Py.round (Py.sum (map float_duration rows) / 1000) 1;
        min_duration_ms := Py.round mn 2;
        max_duration_ms := Py.round mx 2;
        median_duration_ms := Py.round md 2;
        fastest_query :=
          match ok_rows rows with [] => None | _ => Some (query_id fr) end;
        slowest_query :=
          match ok_rows rows with [] => None | _ => Some (query_id sr) end;
      |}.
Proof.
  intros Hne.
  assert (map float_duration rows ≠ []) as Hds by (by destruct rows).
  destruct (min_spec _ Hds) as (mn & Hmn & _).
  destruct (max_spec _ Hds) as (mx & Hmx & _).
  destruct (median_spec _ Hds) as (md & Hmd & _).
  destruct (min_by_spec float_duration rows Hne) as (fr & Hfr & _).
  destruct (max_by_spec float_duration rows Hne) as (sr & Hsr & _).
  exists mn, mx, md, fr, sr. repeat (split; [done|]).
  unfold results_block. fold (ok_rows rows).
  rewrite Hmn, Hmx, Hmd, Hfr, Hsr.
  destruct rows as [|r rows]; [done|].
  destruct (ok_rows (r :: rows)); reflexivity.
Qed.

Lemma write_meta_json_eq (run_dir : string) (rows : list Row)
    (metadata : dict pyval) (schema bench_name : string) (sf : scale)
    (date_str : string) (r : Row) (res : Results) :
  rows !! 0%nat = Some r →
  results_block rows = Some res →
  ∃ meta,
    write_meta_json run_dir rows metadata schema bench_name sf date_str
      = Some (path_join run_dir "meta.json", meta)
    ∧ results meta = res
    ∧ meta_run_ts meta = isoformat <$> run_ts r.
Proof.
  intros Hr Hres. unfold write_meta_json. rewrite Hres, Hr. simpl.
  eexists. split; [reflexivity|]. done.
Qed.

(** C1, as stated, fails: on the rows of scenario A the writer puts
    [min_duration_ms = 0.0], [median_duration_ms = 95.0] and
    [fastest_query = 3] into the stats block, not [95.0], [107.75]
    and [2]. *)
Lemma scenario_A_claimed_stats_fail :
  ∃ meta,
    write_meta_json "2026-02-28_sf1" scenario_A [] "tpcds" "TPC-DS" (SfInt 1)
      "2026-02-28" = Some ("2026-02-28_sf1/meta.json", meta)
    ∧ min_duration_ms (results meta) = 0%Q
    ∧ median_duration_ms (results meta) = 95%Q
    ∧ fastest_query (results meta) = Some 3
    ∧ ¬ scenario_A_claimed (results meta).
Proof.
  eexists. split; [vm_compute; reflexivity|]. simpl.
  repeat (split; [reflexivity|]).
  intros (_ & _ & _ & Hmin & _). vm_compute in Hmin. discriminate.
Qed.

(** C1, amended: for the rows of scenario A the stats block written by
    the metadata writer has [total_queries = 3], [ok_count = 2],
    [error_count = 1], [min_duration_ms = 0.0] (the ERROR row counts),
    [max_duration_ms = 120.5], [median_duration_ms = 95.0] (the median of
    all three durations) and [slowest_query = 1], whatever the other
    arguments are. *)
Theorem scenario_A_stats (run_dir : string) (metadata : dict pyval)
    (schema bench_name : string) (sf : scale) (date_str : string) :
  ∃ meta,
    write_meta_json run_dir scenario_A metadata schema bench_name sf date_str
      = Some (path_join run_dir "meta.json", meta)
    ∧ total_queries (results meta) = 3
    ∧ ok_count (results meta) = 2
    ∧ error_count (results meta) = 1
    ∧ min_duration_ms (results meta) = 0%Q
    ∧ max_duration_ms (results meta) = (241 # 2)%Q
    ∧ median_duration_ms (results meta) = 95%Q
    ∧ slowest_query (results meta) = Some 1.
Proof.
  destruct (results_block scenario_A) as [res|] eqn:Hres;
    [|vm_compute in Hres; discriminate].
  destruct (write_meta_json_eq run_dir scenario_A metadata schema bench_name
              sf date_str _ res eq_refl Hres) as (meta & Hw & Hr & _).
  exists meta. split; [exact Hw|]. rewrite Hr.
  vm_compute in Hres. injection Hres as <-. repeat split.
Qed.

(** C2, at the failing input: on the rows of scenario A the block names
    query 3 as the fastest query, and query 3 is the row whose status is
    ["ERROR"]; the OK rows are queries 1 and 2. *)
Theorem scenario_A_fastest_is_error_row :
  ∃ res,
    results_block scenario_A = Some res
    ∧ fastest_query res = Some 3
    ∧ map (λ r, (query_id r, status r)) scenario_A
      = [(1, "OK"); (2, "OK"); (3, "ERROR")]
    ∧ map query_id (ok_rows scenario_A) = [1; 2].
Proof. eexists. split; [vm_compute; reflexivity|]. repeat split. Qed.

(** With no OK row the guard on [ok_durations] makes both identifiers
    null. *)
Lemma no_ok_row_no_fastest (rows : list Row) (res : Results) :
  ok_rows rows = [] →
  results_block rows = Some res →
  fastest_query res = None ∧ slowest_query res = None.
Proof.
  intros Hok Hres. destruct rows as [|r rows].
  - vm_compute in Hres. by injection Hres as <-.
  - destruct (results_block_eq (r :: rows)) as (?&?&?&?&?&_&_&_&_&_&Heq); [done|].
    rewrite Heq in Hres. injection Hres as <-. simpl. by rewrite Hok.
Qed.




(** C7: for every non-empty row sequence the writer returns a document
    whose stats block satisfies [ok_count + error_count = total_queries],
    and that block is [results_block rows]: a function of the rows alone,
    in which no other argument of the writer takes part. *)
Theorem counts_add_up (run_dir : string) (rows : list Row)
    (metadata : dict pyval) (schema bench_name : string) (sf : scale)
    (date_str : string) :
  rows ≠ [] →
  ∃ meta,
    write_meta_json run_dir rows metadata schema bench_name sf date_str
      = Some (path_join run_dir "meta.json", meta)
    ∧ ok_count (results meta) + error_count (results meta)
      = total_queries (results meta)
    ∧ total_queries (results meta) = Z.of_nat (length rows)
    ∧ results_block rows = Some (results meta).
Proof.
  intros Hne.
  destruct (results_block_eq rows Hne) as (?&?&?&?&?&_&_&_&_&_&Heq).
  destruct rows as [|r rows]; [done|].
  destruct (write_meta_json_eq run_dir (r :: rows) metadata schema bench_name
              sf date_str r _ eq_refl Heq) as (meta & Hw & Hr & _).
  exists meta. split; [exact Hw|]. rewrite Hr. simpl.
  split; [lia|]. split; [done|]. exact Heq.
Qed.

Lemma counts_add_up_witness :
  scenario_A ≠ []
  ∧ ∃ meta,
      write_meta_json "2026-02-28_sf1" scenario_A [] "tpcds" "TPC-DS" (SfInt 1)
        "2026-02-28" = Some (path_join "2026-02-28_sf1" "meta.json", meta)
      ∧ ok_count (results meta) + error_count (results meta)
        = total_queries (results meta)
      ∧ total_queries (results meta) = Z.of_nat (length scenario_A)
      ∧ results_block scenario_A = Some (results meta).
Proof.
  assert (scenario_A ≠ []) as Hne by done.
  split; [exact Hne|]. apply counts_add_up. exact Hne.
Defined.

(** C10: the [run_ts] field comes from the first row alone: it is the
    ISO rendering of that row's timestamp, and it is null exactly when
    the first row carries none, whatever the later rows carry. *)
Theorem run_ts_from_first_row (run_dir : string) (r : Row) (rest : list Row)
    (metadata : dict pyval) (schema bench_name : string) (sf : scale)
    (date_str : string) :
  ∃ meta,
    write_meta_json run_dir (r :: rest) metadata schema bench_name sf date_str
      = Some (path_join run_dir "meta.json", meta)
    ∧ meta_run_ts meta = isoformat <$> run_ts r
    ∧ (meta_run_ts meta = None ↔ run_ts r = None).
Proof.
  destruct (results_block_eq (r :: rest)) as (?&?&?&?&?&_&_&_&_&_&Heq); [done|].
  destruct (write_meta_json_eq run_dir (r :: rest) metadata schema bench_name
              sf date_str r _ eq_refl Heq) as (meta & Hw & _ & Hts).
  exists meta. split; [exact Hw|]. split; [exact Hts|].
  rewrite Hts. by destruct (run_ts r).
Qed.

(** ** The chart's outlier policy *)

(** [int(n * 0.95)] is [95 * n / 100], rounded down. *)
Lemma p95_index_eq (n : nat) : p95_index n = (95 * n / 100)%nat.
Proof.
  unfold p95_index, Qfloor, Qmult, inject_Z. simpl Qnum. simpl Qden.
  change (Z.pos (1 * 100)) with 100.
  apply Nat2Z.inj.
  rewrite Z2Nat.id by (apply Z.div_pos; lia).
  rewrite Nat2Z.inj_div, Nat2Z.inj_mul. f_equal. lia.
Qed.

Lemma p95_index_lt (n : nat) : (1 ≤ n)%nat → (p95_index n < n)%nat.
Proof.
  intros Hn. rewrite p95_index_eq.
  apply Nat.Div0.div_lt_upper_bound. lia.
Qed.

(** The percentile step never raises on a non-empty list. *)
Lemma percentile95_spec (ds : list Q) :
  ds ≠ [] →
  ∃ p95, percentile95 ds = Some p95
    ∧ ((5 ≤ length ds)%nat → Py.sorted ds !! p95_index (length ds) = Some p95)
    ∧ ((length ds < 5)%nat → Py.max (Py.sorted ds) = Some p95).
Proof.
  intros Hne. unfold percentile95. rewrite length_sorted.
  destruct (Nat.leb_spec 5 (length ds)) as [H5|H5].
  - destruct (lookup_lt_is_Some_2 (Py.sorted ds) (p95_index (length ds)))
      as [p Hp].
    { rewrite length_sorted. apply p95_index_lt. lia. }
    exists p. split; [done|]. split; [done|]. intros ?. exfalso. lia.
  - destruct (max_spec (Py.sorted ds)) as (p & Hp & _).
    { intros E. apply (f_equal length) in E. rewrite length_sorted in E.
      destruct ds; [done|discriminate]. }
    exists p. split; [done|]. split; [intros ?; exfalso; lia|done].
Qed.

(** C9: for every non-empty duration list of length [n] the percentile
    step returns a value: when [n >= 5] the index [int(n * 0.95)] is
    strictly below [n], so the element of the ascending sort is there,
    and when [n < 5] the maximum of a non-empty list is taken. *)
Theorem percentile_step_total (ds : list Q) :
  ds ≠ [] →
  let n := length ds in
  ((5 ≤ n)%nat → (p95_index n < n)%nat)
  ∧ ∃ p95, percentile95 ds = Some p95
      ∧ ((5 ≤ n)%nat → Py.sorted ds !! p95_index n = Some p95)
      ∧ ((n < 5)%nat → Py.max (Py.sorted ds) = Some p95).
Proof.
  intros Hne n. split.
  - intros H5. apply p95_index_lt. lia.
  - by apply percentile95_spec.
Qed.

Lemma percentile_step_total_witness :
  [100; 100; 100; 100; 100; 100; 5000]%Q ≠ []
  ∧ percentile95 [100; 100; 100; 100; 100; 100; 5000]%Q = Some 5000%Q.
Proof.
  assert ([100; 100; 100; 100; 100; 100; 5000]%Q ≠ []) as Hne by done.
  split; [exact Hne|].
  destruct (percentile_step_total _ Hne) as (_ & p & Hp & H5 & _).
  rewrite Hp. rewrite <- H5 by (simpl; lia). reflexivity.
Defined.








(** On [scenario_outlier] the percentile is 100, the cap 200, the axis
    ends at 224 and the last bar is drawn at 210 with the text ["20s"]. *)
Example outlier_chart :
  (λ c, (ylim c, bar_height <$> last (bars c), texts c))
    <$> (snd <$> create_chart "2026-02-28_sf1" scenario_outlier "TPC-DS"
                   (SfInt 1) "2026-02-28")
  = Some (Some (0, 100 * 2 * (112 # 100)), Some (100 * 2 * (105 # 100)),
          [{| text_x := 20; text_y := 100 * 2 * (107 # 100); text_s := "20s" |}])%Q.
Proof. vm_compute. reflexivity. Qed.

(** ** The directory allocator *)

Lemma path_exists_true (fs : filesystem) (p : string) :
  path_exists fs p = true ↔ is_Some (fs !! p).
Proof. unfold path_exists. apply bool_decide_eq_true. Qed.

Lemma path_exists_false (fs : filesystem) (p : string) :
  path_exists fs p = false ↔ fs !! p = None.
Proof.
  unfold path_exists. rewrite bool_decide_eq_false. symmetry. apply eq_None_not_Some.
Qed.

Lemma suffixed_inj (run_dir : string) : Inj (=) (=) (suffixed run_dir).
Proof.
  intros i j H. unfold suffixed in H.
  apply (inj (String.app run_dir)), (inj (String.app "_")) in H.
  by apply (inj pretty) in H.
Qed.

(** Where the loop stops, the name is unused and every earlier one is
    taken. *)
Lemma first_unused_Some (fuel : nat) (fs : filesystem) (run_dir : string)
    (i k : nat) :
  first_unused fuel fs run_dir i = Some k →
  (i ≤ k)%nat
  ∧ fs !! suffixed run_dir k = None
  ∧ ∀ j, (i ≤ j < k)%nat → is_Some (fs !! suffixed run_dir j).
Proof.
  revert i. induction fuel as [|fuel IH]; intros i; simpl; [done|].
  destruct (path_exists fs (suffixed run_dir i)) eqn:E.
  - intros H. apply IH in H as (Hle & Hfree & Hused).
    split; [lia|]. split; [done|]. intros j Hj.
    destruct (decide (j = i)) as [->|Hne].
    + by apply path_exists_true.
    + apply Hused. lia.
  - intros [= <-]. split; [done|]. split; [by apply path_exists_false|].
    intros j Hj. lia.
Qed.

(** A loop that runs out of fuel has seen that many taken names. *)
Lemma first_unused_None (fuel : nat) (fs : filesystem) (run_dir : string)
    (i : nat) :
  first_unused fuel fs run_dir i = None →
  ∀ j, (i ≤ j < i + fuel)%nat → is_Some (fs !! suffixed run_dir j).
Proof.
  revert i. induction fuel as [|fuel IH]; intros i; simpl.
  - intros _ j Hj. lia.
  - destruct (path_exists fs (suffixed run_dir i)) eqn:E; [|done].
    intros H j Hj. destruct (decide (j = i)) as [->|Hne].
    + by apply path_exists_true.
    + apply (IH (S i) H). lia.
Qed.

(** The filesystem is finite and the candidate names are pairwise
    distinct, so the loop ends within [size fs + 1] iterations. *)
Lemma first_unused_total (fs : filesystem) (run_dir : string) (i : nat) :
  is_Some (first_unused (S (size fs)) fs run_dir i).
Proof.
  destruct (first_unused (S (size fs)) fs run_dir i) as [k|] eqn:E; [done|].
  exfalso.
  pose proof (first_unused_None _ _ _ _ E) as Hall.
  set (cands := suffixed run_dir <$> seq i (S (size fs))).
  assert (NoDup cands) as Hnd.
  { apply (NoDup_fmap_2 _), NoDup_seq. }
  assert (list_to_set cands ⊆ dom fs) as Hsub.
  { intros p Hp. apply elem_of_list_to_set, list_elem_of_fmap in Hp
      as (j & -> & Hj).
    apply elem_of_dom, Hall. apply elem_of_seq in Hj. lia. }
  apply subseteq_size in Hsub.
  rewrite size_list_to_set, size_dom in Hsub by done.
  unfold cands in Hsub. rewrite length_fmap, length_seq in Hsub. lia.
Qed.

Lemma mkdir_if_missing_keeps (fs : filesystem) (p q : string) (n : node) :
  fs !! q = Some n → mkdir_if_missing fs p !! q = Some n.
Proof.
  intros Hq. unfold mkdir_if_missing.
  destruct (path_exists fs p) eqn:E; [done|].
  apply path_exists_false in E.
  rewrite lookup_insert_ne; [done|]. intros ->. congruence.
Qed.

Lemma makedirs_keeps (p q : string) (fs : filesystem) (n : node) :
  fs !! q = Some n → makedirs p fs !! q = Some n.
Proof.
  unfold makedirs. generalize (ancestors p ++ [p]). intros l.
  revert fs. induction l as [|a l IH]; intros fs Hq; simpl; [done|].
  by apply IH, mkdir_if_missing_keeps.
Qed.

Lemma makedirs_creates (p : string) (fs : filesystem) :
  is_Some (makedirs p fs !! p).
Proof.
  unfold makedirs. rewrite fold_left_app. simpl.
  unfold mkdir_if_missing at 1.
  destruct (path_exists _ p) eqn:E.
  - by apply path_exists_true.
  - rewrite lookup_insert_eq. by eexists.
Qed.

(** The allocator always returns, with a path absent from [fs] that
    follows the naming policy. *)
Lemma make_run_dir_spec (fs : filesystem) (base_dir date_str : string)
    (sf : scale) :
  let first := path_join base_dir (date_str +:+ "_sf" +:+ str_scale sf) in
  ∃ p,
    make_run_dir fs base_dir date_str sf = Some (p, makedirs p fs)
    ∧ fs !! p = None
    ∧ (fs !! first = None → p = first)
    ∧ (is_Some (fs !! first) →
       ∃ i, (2 ≤ i)%nat ∧ p = first +:+ "_" +:+ pretty i
          ∧ ∀ j, (2 ≤ j < i)%nat →
                 is_Some (fs !! (first +:+ "_" +:+ pretty j))).
Proof.
  intros first. unfold make_run_dir. fold first.
  destruct (path_exists fs first) eqn:E.
  - apply path_exists_true in E.
    destruct (first_unused_total fs first 2) as [i Hi]. rewrite Hi. simpl.
    apply first_unused_Some in Hi as (Hle & Hfree & Hused).
    exists (suffixed first i). split; [done|]. split; [done|].
    split.
    + intros Hnone. rewrite Hnone in E. by destruct E.
    + intros _. by exists i.
  - apply path_exists_false in E. simpl.
    exists first. split; [done|]. split; [done|]. split; [done|].
    intros Hsome. rewrite E in Hsome. by destruct Hsome.
Qed.

(** C6: for every state of the filesystem the allocator returns a path
    that did not exist when it was called: the first candidate
    [<base>/<date>_sf<scale>] when that is free, otherwise the candidate
    with the first unused suffix [_2], [_3], ...; the path exists
    afterwards, and a second call with the same date and scale factor
    returns a different path. *)
Theorem run_dir_is_fresh (fs : filesystem) (base_dir date_str : string)
    (sf : scale) :
  let first := path_join base_dir (date_str +:+ "_sf" +:+ str_scale sf) in
  ∃ p fs',
    make_run_dir fs base_dir date_str sf = Some (p, fs')
    ∧ fs !! p = None
    ∧ (fs !! first = None → p = first)
    ∧ (is_Some (fs !! first) →
       ∃ i, (2 ≤ i)%nat ∧ p = first +:+ "_" +:+ pretty i
          ∧ ∀ j, (2 ≤ j < i)%nat →
                 is_Some (fs !! (first +:+ "_" +:+ pretty j)))
    ∧ is_Some (fs' !! p)
    ∧ ∃ p2 fs2,
        make_run_dir fs' base_dir date_str sf = Some (p2, fs2)
        ∧ fs' !! p2 = None
        ∧ p2 ≠ p.
Proof.
  intros first.
  destruct (make_run_dir_spec fs base_dir date_str sf)
    as (p & Hrun & Hfresh & Hfirst & Hnext).
  exists p, (makedirs p fs). split; [exact Hrun|]. split; [exact Hfresh|].
  split; [exact Hfirst|]. split; [exact Hnext|].
  split; [apply makedirs_creates|].
  destruct (make_run_dir_spec (makedirs p fs) base_dir date_str sf)
    as (p2 & Hrun2 & Hfresh2 & _).
  exists p2, (makedirs p2 (makedirs p fs)). split; [exact Hrun2|].
  split; [exact Hfresh2|]. intros ->.
  destruct (makedirs_creates p fs) as [n Hn]. congruence.
Qed.

(** ** The tabular export *)

Section Chars.

Variable P : ascii → bool.

Lemma all_chars_app (s1 s2 : string) :
  all_chars P (s1 +:+ s2) = all_chars P s1 && all_chars P s2.
Proof.
  induction s1 as [|c s1 IH]; simpl; [done|].
  by rewrite IH, andb_assoc.
Qed.

Lemma all_chars_zeros (n : nat) : P "0" = true → all_chars P (zeros n) = true.
Proof. intros H0. induction n as [|n IH]; simpl; [done|]. by rewrite H0. Qed.

Lemma all_chars_rstrip0 (s : string) :
  all_chars P s = true → all_chars P (rstrip0 s) = true.
Proof.
  induction s as [|c s IH]; simpl; [done|].
  intros [Hc Hs]%andb_true_iff.
  destruct (Ascii.eqb c "0" && String.eqb (rstrip0 s) ""); [done|].
  simpl. by rewrite Hc, IH.
Qed.

Lemma all_chars_pretty_N_go (x : N) (s : string) :
  (∀ d, (d < 10)%N → P (pretty_N_char d) = true) →
  all_chars P s = true → all_chars P (pretty_N_go x s) = true.
Proof.
  intros Hdig. revert s.
  induction (N.lt_wf_0 x) as [x _ IH]; intros s Hs.
  destruct (decide (x = 0)%N) as [->|Hx]; [done|].
  rewrite pretty_N_go_step by lia.
  apply IH; [apply N.div_lt; lia|].
  simpl. rewrite Hs, Hdig; [done|]. apply N.mod_lt. lia.
Qed.

End Chars.

Lemma is_digit_pretty_N_char (d : N) : (d < 10)%N → is_digit (pretty_N_char d) = true.
Proof.
  intros Hd.
  assert (d = 0 ∨ d = 1 ∨ d = 2 ∨ d = 3 ∨ d = 4 ∨ d = 5 ∨ d = 6 ∨ d = 7
          ∨ d = 8 ∨ d = 9)%N as Hcases by lia.
  repeat (destruct Hcases as [->|Hcases]; [done|]). by subst.
Qed.

Lemma all_digits_pretty_Z (z : Z) : (0 ≤ z)%Z → all_chars is_digit (pretty z) = true.
Proof.
  intros Hz. destruct z as [|p|p]; [done| |lia].
  unfold pretty, pretty_Z, pretty, pretty_positive, pretty, pretty_N.
  destruct (decide (N.pos p = 0)%N); [done|].
  apply all_chars_pretty_N_go; [apply is_digit_pretty_N_char|done].
Qed.

Lemma all_chars_weaken (P R : ascii → bool) (s : string) :
  (∀ c, P c = true → R c = true) → all_chars P s = true → all_chars R s = true.
Proof.
  intros HPR. induction s as [|c s IH]; simpl; [done|].
  intros [Hc Hs]%andb_true_iff. by rewrite (HPR c Hc), IH.
Qed.

Lemma digits_are_decimal (s : string) :
  all_chars is_digit s = true → all_chars decimal_char s = true.
Proof.
  apply all_chars_weaken. intros c Hc. unfold decimal_char. by rewrite Hc.
Qed.

Lemma repr_fixed_decimal (x : Q) :
  (0 <= x)%Q → decimal_notation (repr_fixed x) = true.
Proof.
  intros Hx. unfold repr_fixed, decimal_notation.
  assert (0 ≤ Qfloor x)%Z as Hip.
  { change 0 with (Qfloor 0). by apply Qfloor_resp_le. }
  assert (0 ≤ Qfloor ((x - inject_Z (Qfloor x)) * inject_Z (10 ^ 20)))%Z as Hfp.
  { change 0 with (Qfloor 0). apply Qfloor_resp_le.
    apply Qmult_le_0_compat; [|done].
    pose proof (Qfloor_le x). lra. }
  rewrite !all_chars_app.
  rewrite (digits_are_decimal _ (all_digits_pretty_Z _ Hip)). simpl.
  destruct (String.eqb _ ""); [done|].
  apply digits_are_decimal, all_chars_rstrip0.
  unfold zfill. rewrite all_chars_app, all_chars_zeros by done.
  by apply all_digits_pretty_Z.
Qed.

Lemma repr_sci_not_decimal (x : Q) : decimal_notation (repr_sci x) = false.
Proof.
  unfold repr_sci, decimal_notation. cbv zeta.
  rewrite !all_chars_app. simpl. by rewrite !andb_false_r.
Qed.

(** Which notation [str] gives a float. *)
Lemma float_repr_notation (x : Q) :
  decimal_notation (float_repr x)
  = Qeq_bool x 0 || in_fixed_range (Qabs x).
Proof.
  unfold float_repr. destruct (Qeq_bool x 0); [done|]. simpl.
  unfold decimal_notation. rewrite all_chars_app.
  destruct (in_fixed_range (Qabs x)).
  - fold (decimal_notation (repr_fixed (Qabs x))).
    rewrite repr_fixed_decimal by apply Qabs_nonneg.
    by destruct (Py.Qltb x 0).
  - fold (decimal_notation (repr_sci (Qabs x))).
    rewrite repr_sci_not_decimal. apply andb_false_r.
Qed.

Lemma in_fixed_range_iff (x : Q) :
  in_fixed_range x = true ↔ (1 # 10000 <= x)%Q ∧ (x < 10 ^ 16)%Q.
Proof.
  unfold in_fixed_range. by rewrite andb_true_iff, Qle_bool_iff, Qltb_lt.
Qed.

Lemma string_app_assoc (s1 s2 s3 : string) :
  (s1 +:+ s2) +:+ s3 = s1 +:+ (s2 +:+ s3).
Proof.
  induction s1 as [|c s1 IH]; [done|].
  change (String c ((s1 +:+ s2) +:+ s3) = String c (s1 +:+ s2 +:+ s3)).
  by rewrite IH.
Qed.

Lemma string_app_nil_r (s : string) : s +:+ "" = s.
Proof.
  induction s as [|c s IH]; [done|].
  change (String c (s +:+ "") = String c s). by rewrite IH.
Qed.

(** Appending record after record is the concatenation of the records. *)
Lemma csv_output_eq (records : list (list string)) (out : string) :
  fold_left (λ out rec, out +:+ csv_record rec) records out
  = out +:+ foldr (λ rec rest, csv_record rec +:+ rest) "" records.
Proof.
  revert out. induction records as [|rec records IH]; intros out; simpl.
  - by rewrite string_app_nil_r.
  - by rewrite IH, string_app_assoc.
Qed.

(** C8, as stated, fails: a duration of [0.00001] ms is written as
    [1e-05], in scientific notation. *)
Lemma tiny_duration_is_scientific :
  write_summary_csv "2026-02-28_sf1" [tiny_duration_row]
  = ("2026-02-28_sf1/summary.csv",
     "query_id,status,duration_ms,rows_returned" +:+ String cr (String lf "")
     +:+ "7,OK,1e-05,1" +:+ String cr (String lf ""))
  ∧ float_repr (float_duration tiny_duration_row) = "1e-05"
  ∧ decimal_notation (float_repr (float_duration tiny_duration_row)) = false.
Proof. by vm_compute. Qed.

(** C8, amended: for every row sequence, the empty one included, the
    exporter writes the header record followed by exactly one record per
    row, in the column order [query_id, status, duration_ms,
    rows_returned]; the duration is rendered by Python's float-to-string
    conversion, which is positional decimal notation exactly when the
    duration is zero or its magnitude lies in [1e-4, 1e16), and
    scientific notation otherwise; on the empty sequence the file holds
    the header line only. *)
Theorem csv_layout (run_dir : string) (rows : list Row) :
  fst (write_summary_csv run_dir rows) = path_join run_dir "summary.csv"
  ∧ snd (write_summary_csv run_dir rows)
    = foldr (λ rec rest, csv_record rec +:+ rest) "" (summary_records rows)
  ∧ length (summary_records rows) = S (length rows)
  ∧ summary_records rows !! 0%nat
    = Some ["query_id"; "status"; "duration_ms"; "rows_returned"]
  ∧ (∀ i r, rows !! i = Some r →
       summary_records rows !! S i
       = Some [pretty (query_id r); status r;
               float_repr (float_duration r); pretty (rows_returned r)])
  ∧ (∀ r, r ∈ rows →
       decimal_notation (float_repr (float_duration r)) = true
       ↔ (float_duration r == 0)%Q
         ∨ ((1 # 10000 <= Qabs (float_duration r))%Q
            ∧ (Qabs (float_duration r) < 10 ^ 16)%Q))
  ∧ write_summary_csv run_dir []
    = (path_join run_dir "summary.csv",
       "query_id,status,duration_ms,rows_returned" +:+ String cr (String lf "")).
Proof.
  split; [done|]. split.
  { unfold write_summary_csv. simpl snd. by rewrite csv_output_eq. }
  split; [unfold summary_records; simpl; by rewrite length_map|].
  split; [done|]. split.
  { intros i r Hr. unfold summary_records. simpl.
    by rewrite list_lookup_fmap, Hr. }
  split; [|by vm_compute].
  intros r _. rewrite float_repr_notation, orb_true_iff.
  by rewrite Qeq_bool_iff, in_fixed_range_iff.
Qed.

(** ** The history index *)

(** [meta_A] is what the metadata writer produces for scenario A. *)
Example meta_A_written :
  write_meta_json "/bench/2026-02-27_sf1" scenario_A
    [("pg_version", VStr "PostgreSQL 17.2, compiled by gcc");
     ("pg_version_num", VInt 170002); ("hostname", VStr "bench");
     ("os", VStr "Linux"); ("arch", VStr "x86_64"); ("cpu_count", VInt 8)]
    "tpcds" "TPC-DS" (SfInt 1) "2026-02-27"
  = Some ("/bench/2026-02-27_sf1/meta.json", meta_A).
Proof. vm_compute. reflexivity. Qed.


(** A present document that does not load makes the scan raise. *)
Lemma load_runs_raises (fs : filesystem) (dirs : list string) (d : string)
    (n : node) :
  d ∈ dirs →
  fs !! path_join d "meta.json" = Some n →
  json_load n = None →
  load_runs fs dirs = None.
Proof.
  intros Hd Hn Hload. induction dirs as [|d' dirs IH]; [by inversion Hd|].
  simpl. apply elem_of_cons in Hd as [<-|Hd].
  - rewrite Hn. simpl. by rewrite Hload.
  - rewrite (IH Hd).
    destruct (fs !! path_join d' "meta.json") as [n'|]; [|done].
    destruct (json_load n'); reflexivity.
Qed.

(** The index is rendered whenever the latest document names its engine
    version, and its all-runs table has a line for every run. *)
Lemma readme_lines_total (bench_name : string) (runs : list (string * Meta))
    (latest_dir : string) (latest : Meta) (v : string) :
  dict_get (postgresql latest) "version" = Some (VStr v) →
  is_Some (readme_lines bench_name runs latest_dir latest).
Proof. intros Hver. unfold readme_lines. rewrite Hver. by eexists. Qed.

Lemma readme_lines_all_runs (bench_name : string)
    (runs : list (string * Meta)) (latest_dir : string) (latest : Meta)
    (lines : list string) (run : string * Meta) :
  readme_lines bench_name runs latest_dir latest = Some lines →
  (1 < length runs)%nat →
  run ∈ runs →
  all_runs_line run ∈ lines.
Proof.
  unfold readme_lines.
  destruct (dict_get (postgresql latest) "version") as [[v| |]|]; try done.
  intros Heq Hlen Hrun. apply (inj Some) in Heq. subst lines.
  apply Nat.ltb_lt in Hlen. rewrite Hlen.
  repeat (apply elem_of_cons; right).
  apply elem_of_app; right. apply elem_of_cons; right.
  apply elem_of_app; left. repeat (apply elem_of_cons; right).
  apply elem_of_app; left. by apply list_elem_of_fmap_2.
Qed.




(** * Further properties *)

(** ** The scan order of the history index *)

Lemma desc_total (a b : string) : String.leb b a = false → String.leb a b = true.
Proof. intros H. destruct (String.leb_total a b) as [E|E]; congruence. Qed.

Lemma desc_trans (x y z : string) :
  String.leb y x = true → String.leb z y = true → String.leb z x = true.
Proof.
  intros Hyx Hzy. apply Is_true_true. apply Is_true_true in Hyx, Hzy.
  exact (transitivity (R := String.le) Hzy Hyx).
Qed.

Lemma run_dirs_elem (fs : filesystem) (base_dir p : string) :
  p ∈ run_dirs_of fs base_dir ↔ is_Some (fs !! p) ∧ is_run_entry base_dir p = true.
Proof.
  unfold run_dirs_of. rewrite sorted_by_perm, list_elem_of_filter.
  rewrite elem_of_elements, elem_of_dom. tauto.
Qed.

Lemma run_dirs_descending (fs : filesystem) (base_dir : string) :
  StronglySorted (λ a b, String.leb b a = true) (run_dirs_of fs base_dir).
Proof.
  apply (sorted_by_sorted (λ a b, String.leb b a)).
  - intros x y. apply desc_total.
  - intros x y z. apply desc_trans.
Qed.



(** ** What the allocator and the indexer leave alone *)

Lemma fold_mkdir_keeps (l : list string) (fs : filesystem) (q : string) (n : node) :
  fs !! q = Some n → fold_left mkdir_if_missing l fs !! q = Some n.
Proof.
  revert fs. induction l as [|a l IH]; intros fs Hq; simpl; [done|].
  by apply IH, mkdir_if_missing_keeps.
Qed.

Lemma fold_mkdir_new (l : list string) (fs : filesystem) (q : string) :
  fs !! q = None →
  is_Some (fold_left mkdir_if_missing l fs !! q) →
  fold_left mkdir_if_missing l fs !! q = Some Dir ∧ q ∈ l.
Proof.
  revert fs. induction l as [|a l IH]; intros fs Hq Hsome; simpl in *.
  - rewrite Hq in Hsome. by destruct Hsome.
  - destruct (decide (q = a)) as [->|Hne].
    + split; [|left]. apply fold_mkdir_keeps.
      unfold mkdir_if_missing.
      destruct (path_exists fs a) eqn:E.
      * apply path_exists_true in E. rewrite Hq in E. by destruct E.
      * apply lookup_insert_eq.
    + destruct (IH (mkdir_if_missing fs a)) as [Hdir Hin]; [|done|].
      * unfold mkdir_if_missing. destruct (path_exists fs a); [done|].
        by rewrite lookup_insert_ne.
      * split; [done|by right].
Qed.

(** X2: the allocator never overwrites or removes anything: every path
    that existed keeps its node; the returned path is a directory
    afterwards; and whatever else is new is a directory on the way to
    it. *)
Theorem make_run_dir_preserves (fs fs' : filesystem)
    (base_dir date_str : string) (sf : scale) (p : string) :
  make_run_dir fs base_dir date_str sf = Some (p, fs') →
  (∀ q n, fs !! q = Some n → fs' !! q = Some n)
  ∧ fs' !! p = Some Dir
  ∧ (∀ q, fs !! q = None → is_Some (fs' !! q) →
          fs' !! q = Some Dir ∧ (q = p ∨ q ∈ ancestors p)).
Proof.
  intros Hrun.
  destruct (make_run_dir_spec fs base_dir date_str sf)
    as (p0 & Hrun0 & Hfresh & _).
  rewrite Hrun in Hrun0. injection Hrun0 as -> ->.
  assert (∀ q, fs !! q = None → is_Some (makedirs p0 fs !! q) →
               makedirs p0 fs !! q = Some Dir ∧ (q = p0 ∨ q ∈ ancestors p0))
    as Hnew.
  { intros q Hq Hsome.
    destruct (fold_mkdir_new (ancestors p0 ++ [p0]) fs q Hq Hsome)
      as [Hdir Hin].
    split; [exact Hdir|].
    apply elem_of_app in Hin as [Hin|Hin]; [by right|].
    apply list_elem_of_singleton in Hin. by left. }
  split; [intros q n; apply makedirs_keeps|]. split; [|exact Hnew].
  apply Hnew; [exact Hfresh|apply makedirs_creates].
Qed.

Lemma make_run_dir_preserves_witness :
  ∃ p fs',
    make_run_dir fs_partial "/bench" "2026-02-27" (SfInt 1) = Some (p, fs')
    ∧ fs' !! p = Some Dir.
Proof.
  assert (is_Some (fst <$> make_run_dir fs_partial "/bench" "2026-02-27"
                             (SfInt 1))) as Hsome
    by (vm_compute; eexists; reflexivity).
  destruct (make_run_dir fs_partial "/bench" "2026-02-27" (SfInt 1))
    as [[p fs']|] eqn:Hrun; [|by destruct Hsome].
  exists p, fs'. split; [reflexivity|].
  exact (proj1 (proj2 (make_run_dir_preserves _ _ _ _ _ _ Hrun))).
Defined.

Lemma update_readme_frame (fs : filesystem) (base_dir schema : string) :
  (dict_get CONFIGS schema = None → update_readme fs base_dir schema = None)
  ∧ ∀ fs', update_readme fs base_dir schema = Some fs' →
      fs' = fs
      ∨ ∃ text, fs' = <[path_join base_dir "README.md" := File (Text text)]> fs.
Proof.
  unfold update_readme. split; [by intros ->|].
  intros fs'. destruct (dict_get CONFIGS schema) as [cfg|]; [|done]. simpl.
  destruct (load_runs fs (run_dirs_of fs base_dir))
    as [[|[latest_dir latest] rest]|]; simpl; [| |done].
  - intros [= <-]. by left.
  - destruct (readme_lines _ _ _ _) as [lines|]; [|done]. simpl.
    intros [= <-]. right. by eexists.
Qed.


(** ** Rebuilding the index twice *)

Lemma last_char_app (a b : string) :
  b ≠ "" → last_char (a +:+ b) = last_char b.
Proof.
  intros Hb. induction a as [|c a IH]; [done|].
  change (String c a +:+ b) with (String c (a +:+ b)).
  cbn [last_char]. rewrite IH.
  destruct (a +:+ b) eqn:E; [|done].
  destruct a; [|discriminate]. cbv [String.append] in E. congruence.
Qed.

Lemma last_char_path_join (a b : string) :
  b ≠ "" → last_char (path_join a b) = last_char b.
Proof.
  intros Hb. unfold path_join.
  destruct (String.prefix "/" b); [done|].
  destruct (_ || _).
  - by apply last_char_app.
  - rewrite last_char_app; [by apply (last_char_app "/")|].
    by destruct b.
Qed.

Lemma meta_path_not_readme (d base_dir : string) :
  path_join d "meta.json" ≠ path_join base_dir "README.md".
Proof.
  intros E. apply (f_equal last_char) in E.
  rewrite !last_char_path_join in E by done. discriminate.
Qed.

Lemma strip_prefix_app (a b c : string) :
  strip_prefix (a +:+ b) (a +:+ c) = strip_prefix b c.
Proof.
  induction a as [|x a IH]; [done|].
  change (strip_prefix (String x (a +:+ b)) (String x (a +:+ c))
          = strip_prefix b c).
  cbn [strip_prefix]. by rewrite Ascii.eqb_refl.
Qed.

(** An entry of [base_dir] gives back its name. *)
Lemma strip_base (base_dir name : string) :
  String.prefix "/" name = false →
  strip_prefix (path_join base_dir "") (path_join base_dir name) = Some name.
Proof.
  intros Hname. unfold path_join. rewrite Hname.
  change (String.prefix "/" "") with false. cbv iota.
  destruct (_ || _).
  - rewrite <- (string_app_nil_r (base_dir +:+ "")) at 1.
    rewrite string_app_assoc, strip_prefix_app. done.
  - rewrite strip_prefix_app. reflexivity.
Qed.

Lemma readme_is_no_run_entry (base_dir : string) :
  is_run_entry base_dir (path_join base_dir "README.md") = false.
Proof. unfold is_run_entry. by rewrite strip_base. Qed.

(** Writing a path that the pattern does not match leaves the scan
    list as it was. *)
Lemma run_dirs_insert (fs : filesystem) (base_dir r : string) (n : node) :
  is_run_entry base_dir r = false →
  run_dirs_of (<[r := n]> fs) base_dir = run_dirs_of fs base_dir.
Proof.
  intros Hr.
  apply (StronglySorted_unique_strong (λ a b, String.leb b a = true)).
  - intros a b _ _ Hab Hba. by apply String.leb_antisym.
  - apply run_dirs_descending.
  - apply run_dirs_descending.
  - unfold run_dirs_of. rewrite !sorted_by_perm, dom_insert_L.
    destruct (decide (r ∈ dom fs)) as [Hin|Hnin].
    + rewrite (subseteq_union_1_L {[r]} (dom fs)); [done|].
      by apply singleton_subseteq_l.
    + rewrite (elements_union_singleton _ _ Hnin).
      rewrite filter_cons_False; [done|]. by rewrite Hr.
Qed.

Lemma load_runs_insert (fs : filesystem) (base_dir : string) (n : node)
    (dirs : list string) :
  load_runs (<[path_join base_dir "README.md" := n]> fs) dirs
  = load_runs fs dirs.
Proof.
  induction dirs as [|d dirs IH]; [done|]. cbn [load_runs].
  rewrite IH, lookup_insert_ne; [done|].
  intros E. symmetry in E. by apply meta_path_not_readme in E.
Qed.

(** X5: rebuilding is idempotent: an index rebuild that returns leaves
    a filesystem on which a second rebuild returns too and changes
    nothing; the index is regenerated from the run directories alone,
    never from the previous index. *)
Theorem update_readme_idempotent (fs fs' : filesystem)
    (base_dir schema : string) :
  update_readme fs base_dir schema = Some fs' →
  update_readme fs' base_dir schema = Some fs'.
Proof.
  intros Hup.
  destruct (proj2 (update_readme_frame fs base_dir schema) fs' Hup)
    as [-> | [text ->]]; [done|].
  revert Hup. unfold update_readme.
  destruct (dict_get CONFIGS schema) as [cfg|]; [|done]. simpl.
  rewrite run_dirs_insert by apply readme_is_no_run_entry.
  rewrite load_runs_insert.
  destruct (load_runs fs (run_dirs_of fs base_dir))
    as [[|[latest_dir latest] rest]|]; simpl; [| |done].
  - intros _. reflexivity.
  - destruct (readme_lines _ _ _ _) as [lines|]; [|done]. simpl.
    intros [= Hfs]. f_equal.
    apply (f_equal (λ m, m !! path_join base_dir "README.md")) in Hfs.
    rewrite !lookup_insert_eq in Hfs. injection Hfs as ->.
    by rewrite insert_insert_eq.
Qed.

Lemma update_readme_idempotent_witness :
  ∃ fs', update_readme fs_partial "/bench" "tpcds" = Some fs'
         ∧ update_readme fs' "/bench" "tpcds" = Some fs'.
Proof.
  assert (is_Some ((λ _, ()) <$> update_readme fs_partial "/bench" "tpcds"))
    as Hsome by (vm_compute; eexists; reflexivity).
  destruct (update_readme fs_partial "/bench" "tpcds") as [fs'|] eqn:E;
    [|by destruct Hsome].
  exists fs'. split; [reflexivity|].
  exact (update_readme_idempotent fs_partial fs' "/bench" "tpcds" E).
Defined.

(** ** From the allocator to the scan *)

Lemma has_slash_app (a b : string) :
  has_slash (a +:+ b) = has_slash a || has_slash b.
Proof.
  induction a as [|c a IH]; [done|].
  change (String c a +:+ b) with (String c (a +:+ b)).
  cbn [has_slash]. by rewrite IH, orb_assoc.
Qed.

Lemma digits_have_no_slash (s : string) :
  all_chars is_digit s = true → has_slash s = false.
Proof.
  induction s as [|c s IH]; [done|]. cbn [all_chars has_slash].
  intros [Hc Hs]%andb_true_iff. rewrite (IH Hs), orb_false_r.
  destruct (Ascii.eqb_spec c "/") as [->|]; [discriminate|done].
Qed.

Lemma pretty_nat_Z (n : nat) : pretty n = pretty (Z.of_nat n).
Proof. by destruct n. Qed.

Lemma suffix_has_no_slash (i : nat) : has_slash ("_" +:+ pretty i) = false.
Proof.
  rewrite has_slash_app. change (has_slash "_") with false. cbn [orb].
  apply digits_have_no_slash. rewrite pretty_nat_Z.
  apply all_digits_pretty_Z. lia.
Qed.

(** [*] matches anything. *)
Lemma fnmatch_star (s : string) : fnmatch "*" s = true.
Proof. induction s as [|c s IH]; [done|]. exact IH. Qed.

(** Matching a pattern without [*] followed by another pattern. *)
Lemma fnmatch_app (p1 p2 s1 s2 : string) :
  all_chars (λ c, negb (Ascii.eqb c "*")) p1 = true →
  fnmatch p1 s1 = true →
  fnmatch p2 s2 = true →
  fnmatch (p1 +:+ p2) (s1 +:+ s2) = true.
Proof.
  revert s1. induction p1 as [|pc p1 IH]; intros s1 Hstar H1 H2.
  - cbn in H1. apply String.eqb_eq in H1 as ->. exact H2.
  - cbn [all_chars] in Hstar. apply andb_true_iff in Hstar as [Hpc Hstar].
    apply negb_true_iff in Hpc.
    change (String pc p1 +:+ p2) with (String pc (p1 +:+ p2)).
    cbn [fnmatch] in H1 |- *. rewrite Hpc in H1 |- *.
    destruct s1 as [|c s1]; [discriminate|].
    change (String c s1 +:+ s2) with (String c (s1 +:+ s2)).
    apply andb_true_iff in H1 as [Hc H1]. rewrite Hc. cbn [andb].
    by apply IH.
Qed.

(** A name made of an ISO-shaped date, [_sf] and anything matches the
    run pattern. *)
Lemma run_pattern_matches (date_str rest : string) :
  fnmatch "????-??-??" date_str = true →
  fnmatch run_pattern (date_str +:+ "_sf" +:+ rest) = true.
Proof.
  intros H.
  change run_pattern with ("????-??-??" +:+ "_sf*").
  apply fnmatch_app; [done|exact H|]. apply fnmatch_star.
Qed.

Lemma no_slash_prefix (s : string) :
  has_slash s = false → String.prefix "/" s = false.
Proof.
  destruct s as [|c s]; [done|]. cbn [has_slash String.prefix].
  intros [Hc _]%orb_false_iff.
  destruct (ascii_dec "/" c) as [<-|]; [|done].
  by rewrite Ascii.eqb_refl in Hc.
Qed.

Lemma prefix_app_l (a b : string) (c : ascii) :
  a ≠ "" →
  String.prefix (String c "") (a +:+ b) = String.prefix (String c "") a.
Proof.
  intros Ha. destruct a as [|x a]; [done|].
  change (String x a +:+ b) with (String x (a +:+ b)).
  cbn [String.prefix]. destruct (ascii_dec c x); [|done].
  by destruct (a +:+ b); destruct a.
Qed.

(** The name of an allocated run directory matches the scan pattern. *)
Lemma allocated_is_run_entry (fs fs' : filesystem)
    (base_dir date_str : string) (sf : scale) (p : string) :
  fnmatch "????-??-??" date_str = true →
  has_slash date_str = false →
  String.prefix "." date_str = false →
  has_slash (str_scale sf) = false →
  make_run_dir fs base_dir date_str sf = Some (p, fs') →
  is_run_entry base_dir p = true.
Proof.
  intros Hiso Hslash Hdot Hsf Hrun.
  destruct (make_run_dir_spec fs base_dir date_str sf)
    as (p0 & Hrun0 & _ & Hfirst & Hnext).
  rewrite Hrun in Hrun0. injection Hrun0 as -> ->.
  assert (date_str ≠ "") as Hne by (by intros ->).
  set (dirname := date_str +:+ "_sf" +:+ str_scale sf) in *.
  assert (has_slash dirname = false) as Hdir.
  { unfold dirname. by rewrite !has_slash_app, Hslash, Hsf. }
  assert (∀ sfx, has_slash sfx = false →
            is_run_entry base_dir (path_join base_dir dirname +:+ sfx) = true)
    as Hentry.
  { intros sfx Hsfx.
    assert (has_slash (dirname +:+ sfx) = false) as Hname
      by (by rewrite has_slash_app, Hdir, Hsfx).
    assert (path_join base_dir dirname +:+ sfx
            = path_join base_dir (dirname +:+ sfx)) as ->.
    { unfold path_join.
      rewrite (no_slash_prefix _ Hdir), (no_slash_prefix _ Hname).
      destruct (_ || _); by rewrite !string_app_assoc. }
    unfold is_run_entry. rewrite strip_base by (by apply no_slash_prefix).
    rewrite Hname. unfold dirname. rewrite !string_app_assoc.
    rewrite run_pattern_matches by done.
    by rewrite (prefix_app_l date_str _ "." Hne), Hdot. }
  destruct (fs !! path_join base_dir dirname) as [n|] eqn:E.
  - destruct Hnext as (i & _ & -> & _); [by eexists|].
    apply Hentry, suffix_has_no_slash.
  - rewrite (Hfirst eq_refl).
    rewrite <- (string_app_nil_r (path_join base_dir dirname)).
    by apply Hentry.
Qed.



(** ** Fastest and slowest query *)

Section FirstExtremum.

Context {A : Type} (key : A → Q).









End FirstExtremum.



(** ** Empty input *)

(** X12: the chart renderer and the metadata writer return exactly on
    non-empty row sequences: on an empty one [max] of an empty list,
    respectively [rows[0]], raises, the guards [if durations else 0] of
    the stats notwithstanding. *)
Theorem writers_raise_exactly_on_empty (run_dir : string) (rows : list Row)
    (metadata : dict pyval) (schema bench_name : string) (sf : scale)
    (date_str : string) :
  (is_Some (create_chart run_dir rows bench_name sf date_str) ↔ rows ≠ [])
  ∧ (is_Some (write_meta_json run_dir rows metadata schema bench_name sf
                date_str) ↔ rows ≠ []).
Proof.
  split; split.
  - intros [c Hc] ->. vm_compute in Hc. discriminate.
  - intros Hne. unfold create_chart.
    assert (map float_duration rows ≠ []) as Hds by (by destruct rows).
    destruct (percentile95_spec _ Hds) as (p95 & Hp & _).
    destruct (max_spec _ Hds) as (mx & Hmx & _).
    unfold y_cap_of. rewrite Hp, Hmx. cbn. by eexists.
  - intros [c Hc] ->. vm_compute in Hc. discriminate.
  - intros Hne.
    destruct (results_block_eq rows Hne) as (?&?&?&?&?&_&_&_&_&_&Heq).
    destruct rows as [|r rows]; [done|].
    destruct (write_meta_json_eq run_dir (r :: rows) metadata schema
                bench_name sf date_str r _ eq_refl Heq) as (meta & Hw & _).
    rewrite Hw. by eexists.
Qed.

(** ** More on the chart *)











Lemma all_pass_iff {A} (P : A → Prop) `{∀ x, Decision (P x)} (l : list A) :
  (length l - length (filter P l) = 0)%nat ↔ ∀ x, x ∈ l → P x.
Proof.
  induction l as [|a l IH]; [split; [intros _ x Hx; by inversion Hx|done]|].
  pose proof (length_filter P l) as Hle.
  rewrite filter_cons. destruct (decide (P a)) as [Ha|Ha]; cbn [length].
  - replace (S (length l) - S (length (filter P l)))%nat
      with (length l - length (filter P l))%nat by lia.
    rewrite IH. split.
    + intros Hall x [->|Hx]%elem_of_cons; auto.
    + intros Hall x Hx. apply Hall. by right.
  - split; [lia|]. intros Hall. exfalso. apply Ha, Hall. left.
Qed.

(** X10: the chart has one bar and one tick label per row, in row order;
    a bar is green exactly when its row's status is ["OK"], red
    otherwise; and the legend shows the ERROR entry exactly when some row
    is not OK. *)
Theorem chart_one_bar_per_row (run_dir : string) (rows : list Row)
    (bench_name : string) (sf : scale) (date_str path : string)
    (chart : Chart) :
  create_chart run_dir rows bench_name sf date_str = Some (path, chart) →
  path = path_join run_dir "queries.png"
  ∧ length (bars chart) = length rows
  ∧ xticklabels chart = map (λ r, pretty (query_id r)) rows
  ∧ (∀ i r, rows !! i = Some r →
       bar_color <$> bars chart !! i
       = Some (if is_ok r then "#4CAF50" else "#F44336"))
  ∧ (legend chart = [("#4CAF50", "OK")] ↔ ∀ r, r ∈ rows → is_ok r = true)
  ∧ (legend chart = [("#4CAF50", "OK"); ("#F44336", "ERROR")]
     ↔ ¬ ∀ r, r ∈ rows → is_ok r = true).
Proof.
  unfold create_chart.
  destruct (y_cap_of (map float_duration rows)) as [y_cap|]; [|done].
  cbn [mbind option_bind]. intros [= <- <-]. cbn.
  split; [done|]. split.
  { by rewrite length_zip_with, !length_map, Nat.min_id. }
  split; [by rewrite map_map|]. split.
  { intros i r Hr. rewrite lookup_zip_with, !list_lookup_fmap, Hr. cbn.
    unfold bar_of, color_of, is_ok.
    destruct (truthy y_cap) as [c|]; [|done].
    by destruct (Py.Qltb c (float_duration r)). }
  assert ((length (map status rows)
           - length (filter (λ s, s = "OK") (map status rows)) = 0)%nat
          ↔ ∀ r, r ∈ rows → is_ok r = true) as Hiff.
  { rewrite all_pass_iff. split.
    - intros Hall r Hr. apply String.eqb_eq, Hall.
      by apply list_elem_of_fmap_2.
    - intros Hall s Hs. apply list_elem_of_fmap in Hs as (r & -> & Hr).
      by apply String.eqb_eq, Hall. }
  destruct (Nat.eqb_spec
              (length (map status rows)
               - length (filter (λ s, s = "OK") (map status rows))) 0)
    as [E|E].
  - split; [split; [intros _; by apply Hiff|done]|].
    split; [done|]. intros Hn. exfalso. by apply Hn, Hiff.
  - split; [split; [done|]|].
    + intros Hall. exfalso. by apply E, Hiff.
    + split; [intros _ Hall; by apply E, Hiff|done].
Qed.

Lemma chart_one_bar_per_row_witness :
  ∃ path chart,
    create_chart "2026-02-28_sf1" scenario_A "TPC-DS" (SfInt 1) "2026-02-28"
    = Some (path, chart)
    ∧ length (bars chart) = length scenario_A.
Proof.
  destruct (create_chart "2026-02-28_sf1" scenario_A "TPC-DS" (SfInt 1)
              "2026-02-28") as [[path chart]|] eqn:E;
    [|vm_compute in E; discriminate].
  exists path, chart. split; [reflexivity|].
  exact (proj1 (proj2 (chart_one_bar_per_row _ _ _ _ _ _ _ E))).
Defined.

(** ** Quoting in the tabular export *)

Lemma all_chars_substring (P : ascii → bool) (s : string) (n m : nat) :
  all_chars P s = true → all_chars P (String.substring n m s) = true.
Proof.
  revert n m. induction s as [|c s IH]; intros n m Hs.
  - by destruct n, m.
  - cbn [all_chars] in Hs. apply andb_true_iff in Hs as [Hc Hs].
    destruct n as [|n]; cbn [String.substring].
    + destruct m as [|m]; [done|]. cbn [all_chars]. by rewrite Hc, IH.
    + by apply IH.
Qed.

Lemma number_chars_pretty_Z (z : Z) : all_chars number_char (pretty z) = true.
Proof.
  assert (∀ n, (0 ≤ n)%Z → all_chars number_char (pretty n) = true) as Hpos.
  { intros n Hn. eapply all_chars_weaken; [|by apply all_digits_pretty_Z].
    intros c Hc. unfold number_char. by rewrite Hc. }
  destruct z as [|p|p]; [done|by apply Hpos|].
  change (pretty (Z.neg p)) with ("-" +:+ pretty (Z.pos p)).
  rewrite all_chars_app. by rewrite (Hpos (Z.pos p)).
Qed.

Lemma number_chars_float_repr (x : Q) :
  all_chars number_char (float_repr x) = true.
Proof.
  unfold float_repr. destruct (Qeq_bool x 0); [done|].
  rewrite all_chars_app.
  assert (all_chars number_char (if Py.Qltb x 0 then "-" else "") = true)
    as -> by (by destruct (Py.Qltb x 0)).
  cbn [andb]. destruct (in_fixed_range (Qabs x)).
  - eapply all_chars_weaken; [|apply repr_fixed_decimal, Qabs_nonneg].
    intros c Hc. unfold number_char. unfold decimal_char in Hc.
    apply orb_true_iff in Hc as [Hc|Hc]; [|by rewrite Hc, !orb_true_r].
    by rewrite Hc.
  - unfold repr_sci. cbv zeta.
    repeat (rewrite all_chars_app; apply andb_true_iff; split).
    + apply all_chars_substring, number_chars_pretty_Z.
    + destruct (String.eqb _ ""); [done|]. rewrite all_chars_app.
      apply andb_true_iff. split; [done|].
      apply all_chars_rstrip0, all_chars_substring, number_chars_pretty_Z.
    + done.
    + by destruct (_ <? 0)%Z.
    + unfold zfill. rewrite all_chars_app, all_chars_zeros by done.
      apply number_chars_pretty_Z.
Qed.

Lemma number_is_bare (s : string) :
  all_chars number_char s = true → csv_field s = s.
Proof.
  intros Hs. unfold csv_field.
  assert (has_special s = false) as ->; [|done].
  induction s as [|c s IH]; [done|]. cbn [all_chars has_special] in *.
  apply andb_true_iff in Hs as [Hc Hs]. rewrite (IH Hs), orb_false_r.
  unfold number_char, is_digit in Hc. unfold csv_special.
  destruct (Ascii.eqb_spec c ",") as [->|]; [done|].
  destruct (Ascii.eqb_spec c dquote) as [->|]; [done|].
  destruct (Ascii.eqb_spec c cr) as [->|]; [done|].
  by destruct (Ascii.eqb_spec c lf) as [->|].
Qed.

(** X: in every data record the three numeric columns are written bare,
    whatever their values: only the status can need quoting, and it is
    quoted exactly when it holds a comma, a quote, CR or LF. *)
Theorem numeric_columns_are_bare (r : Row) :
  csv_record (csv_row r)
  = pretty (query_id r) +:+ "," +:+ csv_field (status r) +:+ ","
    +:+ float_repr (float_duration r) +:+ "," +:+ pretty (rows_returned r)
    +:+ String cr (String lf "")
  ∧ (has_special (status r) = false → csv_field (status r) = status r)
  ∧ (has_special (status r) = true →
     csv_field (status r)
     = String dquote (double_quotes (status r)) +:+ String dquote "").
Proof.
  split.
  - unfold csv_record, csv_row. cbn [map join].
    rewrite (number_is_bare _ (number_chars_pretty_Z (query_id r))).
    rewrite (number_is_bare _ (number_chars_pretty_Z (rows_returned r))).
    rewrite (number_is_bare _ (number_chars_float_repr (float_duration r))).
    by rewrite !string_app_assoc.
  - unfold csv_field. split; by intros ->.
Qed.

(** ** The fetched metadata and the document *)

(** What [fetch_metadata] returns, when it returns: twelve keys in a
    fixed order, with the server's answers and the machine's facts. *)
Lemma fetch_metadata_shape (host : Host) (conn : Connection) (schema : string)
    (metadata : dict pyval) :
  fetch_metadata host conn schema = Some metadata →
  ∃ version num sb wm ecs mpw mc sf,
    server_version conn = Some version
    ∧ show conn "server_version_num" ≫= py_int = Some num
    ∧ show conn "shared_buffers" = Some sb
    ∧ show conn "work_mem" = Some wm
    ∧ show conn "effective_cache_size" = Some ecs
    ∧ show conn "max_parallel_workers_per_gather" = Some mpw
    ∧ show conn "max_connections" = Some mc
    ∧ (sf = VNone ∨ ∃ n, sf = VInt n)
    ∧ metadata
      = [("pg_version", VStr version); ("pg_version_num", VInt num);
         ("pg_shared_buffers", VStr sb); ("pg_work_mem", VStr wm);
         ("pg_effective_cache_size", VStr ecs);
         ("pg_max_parallel_workers_per_gather", VStr mpw);
         ("pg_max_connections", VStr mc); ("scale_factor", sf);
         ("hostname", VStr (h_hostname host)); ("os", VStr (h_platform host));
         ("arch", VStr (h_machine host));
         ("cpu_count",
          match h_cpu_count host with Some n => VInt n | None => VNone end)].
Proof.
  unfold fetch_metadata, gucs. cbn [foldl].
  destruct (server_version conn) as [version|]; [|done].
  destruct (show conn "server_version_num" ≫= py_int) as [num|]; [|done].
  destruct (show conn "shared_buffers") as [sb|]; [|done].
  destruct (show conn "work_mem") as [wm|]; [|done].
  destruct (show conn "effective_cache_size") as [ecs|]; [|done].
  destruct (show conn "max_parallel_workers_per_gather") as [mpw|]; [|done].
  destruct (show conn "max_connections") as [mc|]; [|done].
  cbn [mbind option_bind].
  destruct (config_scale_factor conn schema) as [row|]; [|done].
  cbn [mbind option_bind].
  destruct (scale_factor_of row) as [sf|] eqn:Hsf; [|done].
  cbn [mbind option_bind]. intros [= <-].
  exists version, num, sb, wm, ecs, mpw, mc, sf.
  repeat (split; [reflexivity|]). split; [|reflexivity].
  unfold scale_factor_of in Hsf.
  destruct row as [[s|n|]|]; try (injection Hsf as <-; by left).
  - destruct (String.eqb s ""); [injection Hsf as <-; by left|].
    destruct (py_int s) as [n|]; [|done]. injection Hsf as <-.
    right. by exists n.
  - injection Hsf as <-. destruct (n =? 0)%Z; [by left|right; by exists n].
Qed.

(** The two blocks [write_meta_json] builds from such a dictionary. *)
Lemma fetched_blocks (version : string) (num : Z) (sb wm ecs mpw mc : string)
    (sfv : pyval) (hn os arch : string) (cpu : pyval) (metadata : dict pyval) :
  metadata
  = [("pg_version", VStr version); ("pg_version_num", VInt num);
     ("pg_shared_buffers", VStr sb); ("pg_work_mem", VStr wm);
     ("pg_effective_cache_size", VStr ecs);
     ("pg_max_parallel_workers_per_gather", VStr mpw);
     ("pg_max_connections", VStr mc); ("scale_factor", sfv);
     ("hostname", VStr hn); ("os", VStr os); ("arch", VStr arch);
     ("cpu_count", cpu)] →
  fold_left (λ d kv, dict_set (fst kv) (snd kv) d) (pg_settings metadata)
    [("version", get_default metadata "pg_version" (VStr ""));
     ("version_num", get_default metadata "pg_version_num" (VInt 0))]
  = [("version", VStr version); ("version_num", VInt num);
     ("shared_buffers", VStr sb); ("work_mem", VStr wm);
     ("effective_cache_size", VStr ecs);
     ("max_parallel_workers_per_gather", VStr mpw);
     ("max_connections", VStr mc)]
  ∧ [("hostname", get_default metadata "hostname" (VStr ""));
     ("os", get_default metadata "os" (VStr ""));
     ("arch", get_default metadata "arch" (VStr ""));
     ("cpu_count", get_default metadata "cpu_count" (VInt 0))]
    = [("hostname", VStr hn); ("os", VStr os); ("arch", VStr arch);
       ("cpu_count", cpu)].
Proof. intros ->. split; vm_compute; reflexivity. Qed.

(** X: for whatever the server answers, the document written from the
    fetched metadata has a [postgresql] block of exactly seven entries:
    the version string, the numeric version and the five settings under
    their own names, in this order; a [system] block with the machine's
    facts; and the index can always be rendered from it. *)
Theorem document_from_fetched_metadata (host : Host) (conn : Connection)
    (schema_name : string) (metadata : dict pyval) (run_dir : string)
    (rows : list Row) (bench_name : string) (sf : scale)
    (date_str path : string) (meta : Meta) :
  fetch_metadata host conn schema_name = Some metadata →
  write_meta_json run_dir rows metadata schema_name bench_name sf date_str
    = Some (path, meta) →
  (∃ version num sb wm ecs mpw mc,
     server_version conn = Some version
     ∧ show conn "server_version_num" ≫= py_int = Some num
     ∧ show conn "shared_buffers" = Some sb
     ∧ show conn "work_mem" = Some wm
     ∧ show conn "effective_cache_size" = Some ecs
     ∧ show conn "max_parallel_workers_per_gather" = Some mpw
     ∧ show conn "max_connections" = Some mc
     ∧ postgresql meta
       = [("version", VStr version); ("version_num", VInt num);
          ("shared_buffers", VStr sb); ("work_mem", VStr wm);
          ("effective_cache_size", VStr ecs);
          ("max_parallel_workers_per_gather", VStr mpw);
          ("max_connections", VStr mc)])
  ∧ system meta
    = [("hostname", VStr (h_hostname host)); ("os", VStr (h_platform host));
       ("arch", VStr (h_machine host));
       ("cpu_count",
        match h_cpu_count host with Some n => VInt n | None => VNone end)]
  ∧ ∀ bench runs latest_dir,
      is_Some (readme_lines bench runs latest_dir meta).
Proof.
  intros Hfetch Hwrite.
  destruct (fetch_metadata_shape _ _ _ _ Hfetch)
    as (version & num & sb & wm & ecs & mpw & mc & sfv
        & Hv & Hnum & Hsb & Hwm & Hecs & Hmpw & Hmc & _ & Hmd).
  destruct (fetched_blocks _ _ _ _ _ _ _ _ _ _ _ _ _ Hmd) as [Hpg Hsys].
  clear Hfetch Hmd.
  unfold write_meta_json in Hwrite.
  destruct (results_block rows) as [res|]; [|discriminate Hwrite].
  destruct (rows !! 0%nat) as [row0|]; [|discriminate Hwrite].
  cbn [mbind option_bind] in Hwrite.
  rewrite Hpg, Hsys in Hwrite.
  apply (inj Some) in Hwrite. apply (f_equal snd) in Hwrite.
  cbn [snd] in Hwrite. subst meta. cbn [postgresql system].
  split; [|split].
  - exists version, num, sb, wm, ecs, mpw, mc.
    repeat (split; [assumption|]). reflexivity.
  - reflexivity.
  - intros bench runs latest_dir.
    apply (readme_lines_total _ _ _ _ version). reflexivity.
Qed.

(** ** The whole program *)

Lemma length_string_app (a b : string) :
  String.length (a +:+ b) = (String.length a + String.length b)%nat.
Proof.
  induction a as [|c a IH]; [done|].
  change (S (String.length (a +:+ b)) = S (String.length a + String.length b)).
  by rewrite IH.
Qed.

Lemma path_join_longer (a b : string) :
  String.prefix "/" b = false → b ≠ "" → path_join a b ≠ a.
Proof.
  intros Hb Hne Heq. apply (f_equal String.length) in Heq.
  unfold path_join in Heq. rewrite Hb in Heq.
  destruct b as [|c b]; [done|].
  destruct (_ || _); rewrite !length_string_app in Heq; cbn in Heq; lia.
Qed.

Lemma all_chars_impl (P Q : ascii → bool) (s : string) :
  (∀ c, P c = true → Q c = true) →
  all_chars P s = true → all_chars Q s = true.
Proof.
  intros HPQ. induction s as [|c s IH]; [done|]. cbn [all_chars].
  intros [Hc Hs]%andb_true_iff. by rewrite (HPQ c Hc), IH.
Qed.

Lemma last_char_all (P : ascii → bool) (s : string) (c : ascii) :
  all_chars P s = true → last_char s = Some c → P c = true.
Proof.
  induction s as [|x s IH]; [done|]. cbn [all_chars].
  intros [Hx Hs]%andb_true_iff. destruct s as [|y s].
  - by intros [= <-].
  - intros Hl. by apply IH.
Qed.

Lemma all_chars_no_slash (P : ascii → bool) (s : string) :
  P "/"%char = false → all_chars P s = true → has_slash s = false.
Proof.
  intros HP. induction s as [|c s IH]; [done|]. cbn [all_chars has_slash].
  intros [Hc Hs]%andb_true_iff. rewrite (IH Hs), orb_false_r.
  destruct (Ascii.eqb_spec c "/") as [->|]; [congruence|done].
Qed.

(** A run of [generate_report] that returns went through every step. *)
Lemma generate_report_returned (host : Host) (args : Args)
    (schema bench_name : string) (rows : list Row) (metadata : dict pyval)
    (fs : filesystem) :
  let sf := choose_sf args metadata in
  let date_str := default (h_today host) (nonempty (arg_date args)) in
  let base_dir :=
    default (dirname (abspath (h_cwd host) (h_script_file host)))
            (nonempty (arg_outdir args)) in
  ending_of (generate_report host args schema bench_name rows metadata fs)
  = Returned →
  ∃ run_dir chart meta,
    make_run_dir fs base_dir date_str sf = Some (run_dir, makedirs run_dir fs)
    ∧ fs !! run_dir = None
    ∧ create_chart run_dir rows bench_name sf date_str
      = Some (path_join run_dir "queries.png", chart)
    ∧ write_meta_json run_dir rows metadata schema bench_name sf date_str
      = Some (path_join run_dir "meta.json", meta)
    ∧ update_readme
        (<[path_join run_dir "meta.json" := File (Json meta)]>
           (<[path_join run_dir "queries.png"
              := File (Text (h_savefig host chart))]>
              (<[path_join run_dir "summary.csv"
                 := File (Text (snd (write_summary_csv run_dir rows)))]>
                 (makedirs run_dir fs))))
        base_dir schema
      = Some (files (generate_report host args schema bench_name rows
                       metadata fs)).
Proof.
  intros sf date_str base_dir. unfold generate_report.
  fold sf date_str base_dir. cbv zeta.
  destruct (make_run_dir_spec fs base_dir date_str sf)
    as (run_dir & Hrun & Hfresh & _).
  rewrite Hrun.
  destruct (create_chart run_dir rows bench_name sf date_str)
    as [[png_path chart]|] eqn:Hchart; [|discriminate].
  assert (png_path = path_join run_dir "queries.png") as ->.
  { unfold create_chart in Hchart.
    destruct (y_cap_of (map float_duration rows)); [|discriminate].
    cbn [mbind option_bind] in Hchart. by injection Hchart as <- _. }
  destruct (write_meta_json run_dir rows metadata schema bench_name sf
              date_str) as [[meta_path meta]|] eqn:Hmeta; [|discriminate].
  assert (meta_path = path_join run_dir "meta.json") as ->.
  { unfold write_meta_json in Hmeta.
    destruct (results_block rows); [|discriminate].
    destruct (rows !! 0%nat); [|discriminate].
    cbn [mbind option_bind] in Hmeta. by injection Hmeta as <- _. }
  change (fst (write_summary_csv run_dir rows))
    with (path_join run_dir "summary.csv").
  destruct (update_readme _ base_dir schema) as [fs5|] eqn:Hup;
    [|discriminate].
  intros _. exists run_dir, chart, meta. cbn [files].
  repeat (split; [reflexivity || assumption|]). exact Hup.
Qed.

(** A run of [main] that returns went through [generate_report], on a
    configured benchmark, an open connection and at least one row. *)
Lemma main_returned (host : Host) (args : Args) (fs : filesystem) :
  ending_of (main host args fs) = Returned →
  ∃ schema bench_name queries conn rows metadata,
    resolve_schema host args = Some (schema, (bench_name, queries))
    ∧ h_connect host (connect_params args) = inr conn
    ∧ fetch_bench_data conn schema = Some rows
    ∧ rows ≠ []
    ∧ fetch_metadata host conn schema = Some metadata
    ∧ main host args fs
      = generate_report host args schema bench_name rows metadata fs.
Proof.
  unfold main.
  destruct (resolve_schema host args) as [[schema [bench_name queries]]|]
    eqn:Hschema; [|discriminate].
  destruct (h_connect host (connect_params args)) as [e|conn] eqn:Hconn;
    [discriminate|].
  destruct (fetch_bench_data conn schema) as [[|r rows]|] eqn:Hrows;
    try discriminate.
  destruct (fetch_metadata host conn schema) as [metadata|] eqn:Hmeta;
    [|discriminate].
  intros _. exists schema, bench_name, queries, conn, (r :: rows), metadata.
  do 3 (split; [reflexivity || assumption|]). split; [discriminate|].
  split; [assumption|reflexivity].
Qed.

(** [generate_report] never calls [sys.exit] and never writes to
    [stderr]. *)
Lemma generate_report_no_exit (host : Host) (args : Args)
    (schema bench_name : string) (rows : list Row) (metadata : dict pyval)
    (fs : filesystem) :
  let out := generate_report host args schema bench_name rows metadata fs in
  (ending_of out = Returned ∨ ending_of out = Raised) ∧ stderr out = [].
Proof.
  unfold generate_report. cbv zeta.
  destruct (make_run_dir _ _ _ _) as [[run_dir fs1]|]; [|by split; [right|]].
  destruct (create_chart _ _ _ _ _) as [[png_path chart]|];
    [|by split; [right|]].
  destruct (write_meta_json _ _ _ _ _ _ _) as [[meta_path meta]|];
    [|by split; [right|]].
  destruct (update_readme _ _ _) as [fs5|]; [by split; [left|]|].
  by split; [right|].
Qed.

Lemma choose_sf_fetched (host : Host) (conn : Connection) (schema : string)
    (metadata : dict pyval) (args : Args) :
  fetch_metadata host conn schema = Some metadata →
  (∃ n, n ≠ 0 ∧ choose_sf args metadata = SfInt n)
  ∨ choose_sf args metadata = SfStr "unknown".
Proof.
  intros Hfetch.
  destruct (fetch_metadata_shape _ _ _ _ Hfetch)
    as (version & num & sb & wm & ecs & mpw & mc & sfv & _ & _ & _ & _ & _
        & _ & _ & Hsf & ->).
  unfold choose_sf. cbn [dict_get String.eqb Ascii.eqb Bool.eqb].
  assert ((∃ n, n ≠ 0
             ∧ match sfv with
               | VInt n => if (n =? 0)%Z then SfStr "unknown" else SfInt n
               | VStr s => if String.eqb s "" then SfStr "unknown" else SfStr s
               | VNone => SfStr "unknown"
               end = SfInt n)
          ∨ match sfv with
            | VInt n => if (n =? 0)%Z then SfStr "unknown" else SfInt n
            | VStr s => if String.eqb s "" then SfStr "unknown" else SfStr s
            | VNone => SfStr "unknown"
            end = SfStr "unknown") as Hstored.
  { destruct Hsf as [->|[n ->]]; [by right|].
    destruct (Z.eqb_spec n 0); [by right|left; by exists n]. }
  destruct (arg_sf args) as [n|]; [|exact Hstored].
  destruct (Z.eqb_spec n 0); [exact Hstored|left; by exists n].
Qed.

Lemma scale_has_no_d (sf : scale) :
  (∃ n, sf = SfInt n) ∨ sf = SfStr "unknown" →
  all_chars (λ c, negb (Ascii.eqb c "d") && negb (Ascii.eqb c "/"))
    (str_scale sf) = true.
Proof.
  intros [[n ->]| ->]; [|reflexivity]. cbn [str_scale].
  apply (all_chars_impl number_char); [|apply number_chars_pretty_Z].
  intros c Hc.
  destruct (Ascii.eqb_spec c "d") as [->|]; [discriminate|].
  destruct (Ascii.eqb_spec c "/") as [->|]; [discriminate|done].
Qed.

(** The allocated directory cannot be the index file: its name ends in
    a digit or in ["unknown"]. *)
Lemma run_dir_not_readme (fs fs' : filesystem) (base_dir date_str : string)
    (sf : scale) (p : string) :
  (∃ n, sf = SfInt n) ∨ sf = SfStr "unknown" →
  make_run_dir fs base_dir date_str sf = Some (p, fs') →
  p ≠ path_join base_dir "README.md".
Proof.
  intros Hsf Hrun Heq.
  pose proof (scale_has_no_d sf Hsf) as Hchars.
  assert (last_char p = Some "d"%char) as Hlast
    by (by rewrite Heq, last_char_path_join).
  destruct (make_run_dir_spec fs base_dir date_str sf)
    as (p0 & Hrun0 & _ & Hfirst & Hnext).
  rewrite Hrun in Hrun0. injection Hrun0 as -> _. clear Heq Hrun.
  set (P := λ c, negb (Ascii.eqb c "d") && negb (Ascii.eqb c "/")) in *.
  assert (P "d"%char = true → False) as Hd by (intros [=]).
  assert (last_char (path_join base_dir (date_str +:+ "_sf" +:+ str_scale sf))
          = last_char ("_sf" +:+ str_scale sf)) as Hfl.
  { rewrite last_char_path_join by (by destruct date_str).
    by rewrite last_char_app. }
  destruct (fs !! path_join base_dir (date_str +:+ "_sf" +:+ str_scale sf))
    as [n|] eqn:E.
  - destruct Hnext as (i & _ & -> & _); [by eexists|].
    rewrite last_char_app in Hlast by done.
    apply Hd, (last_char_all P ("_" +:+ pretty i)); [|exact Hlast].
    change (all_chars P (pretty i) = true). rewrite pretty_nat_Z.
    apply (all_chars_impl number_char); [|apply number_chars_pretty_Z].
    intros c Hc. unfold P.
    destruct (Ascii.eqb_spec c "d") as [->|]; [discriminate|].
    destruct (Ascii.eqb_spec c "/") as [->|]; [discriminate|done].
  - rewrite (Hfirst eq_refl), Hfl in Hlast.
    apply Hd, (last_char_all P ("_sf" +:+ str_scale sf)); [|exact Hlast].
    exact Hchars.
Qed.

Lemma artifact_paths_distinct (run_dir base_dir : string) :
  path_join run_dir "summary.csv" ≠ path_join run_dir "queries.png"
  ∧ path_join run_dir "summary.csv" ≠ path_join run_dir "meta.json"
  ∧ path_join run_dir "queries.png" ≠ path_join run_dir "meta.json"
  ∧ path_join run_dir "summary.csv" ≠ path_join base_dir "README.md"
  ∧ path_join run_dir "queries.png" ≠ path_join base_dir "README.md"
  ∧ path_join run_dir "meta.json" ≠ path_join base_dir "README.md".
Proof.
  repeat split; intros H; apply (f_equal last_char) in H;
    rewrite !last_char_path_join in H by done; discriminate H.
Qed.

Lemma update_readme_elsewhere (fs fs' : filesystem) (base_dir schema q : string) :
  update_readme fs base_dir schema = Some fs' →
  q ≠ path_join base_dir "README.md" →
  fs' !! q = fs !! q.
Proof.
  intros Hup Hq.
  destruct (update_readme_frame fs base_dir schema) as [_ Hframe].
  destruct (Hframe fs' Hup) as [->|[text ->]]; [done|].
  by rewrite lookup_insert_ne.
Qed.

(** X: a run of [main] that returns has allocated a run directory that
    did not exist, and left in it [summary.csv], [queries.png] and
    [meta.json] with what the three writers produce from the fetched
    rows and metadata; nothing that existed before is touched, except
    the index file; and whatever else is new is a directory on the way
    to the run directory. *)
Theorem main_writes_the_run (host : Host) (args : Args) (fs : filesystem) :
  let out := main host args fs in
  let base_dir :=
    default (dirname (abspath (h_cwd host) (h_script_file host)))
            (nonempty (arg_outdir args)) in
  let date_str := default (h_today host) (nonempty (arg_date args)) in
  ending_of out = Returned →
  ∃ schema bench_name queries conn rows metadata run_dir chart meta,
    resolve_schema host args = Some (schema, (bench_name, queries))
    ∧ h_connect host (connect_params args) = inr conn
    ∧ fetch_bench_data conn schema = Some rows
    ∧ fetch_metadata host conn schema = Some metadata
    ∧ make_run_dir fs base_dir date_str (choose_sf args metadata)
      = Some (run_dir, makedirs run_dir fs)
    ∧ create_chart run_dir rows bench_name (choose_sf args metadata) date_str
      = Some (path_join run_dir "queries.png", chart)
    ∧ write_meta_json run_dir rows metadata schema bench_name
        (choose_sf args metadata) date_str
      = Some (path_join run_dir "meta.json", meta)
    ∧ fs !! run_dir = None
    ∧ files out !! run_dir = Some Dir
    ∧ files out !! path_join run_dir "summary.csv"
      = Some (File (Text (snd (write_summary_csv run_dir rows))))
    ∧ files out !! path_join run_dir "queries.png"
      = Some (File (Text (h_savefig host chart)))
    ∧ files out !! path_join run_dir "meta.json" = Some (File (Json meta))
    ∧ (∀ q n, fs !! q = Some n →
         q ∉ [path_join run_dir "summary.csv"; path_join run_dir "queries.png";
              path_join run_dir "meta.json"; path_join base_dir "README.md"] →
         files out !! q = Some n)
    ∧ (∀ q, fs !! q = None → is_Some (files out !! q) →
         q ∈ [run_dir; path_join run_dir "summary.csv";
              path_join run_dir "queries.png"; path_join run_dir "meta.json";
              path_join base_dir "README.md"]
         ∨ (q ∈ ancestors run_dir ∧ files out !! q = Some Dir)).
Proof.
  intros out base_dir date_str Hret. unfold out in *. clear out.
  destruct (main_returned host args fs Hret)
    as (schema & bench_name & queries & conn & rows & metadata & Hschema
        & Hconn & Hrows & _ & Hfetch & Hmain).
  rewrite Hmain in Hret |- *.
  destruct (generate_report_returned host args schema bench_name rows
              metadata fs Hret)
    as (run_dir & chart & meta & Hrun & Hfresh & Hchart & Hmeta & Hup).
  fold base_dir date_str in Hrun, Hchart, Hmeta, Hup.
  set (fs5 := files (generate_report host args schema bench_name rows
                       metadata fs)) in *.
  clearbody fs5. clear Hmain Hret.
  destruct (artifact_paths_distinct run_dir base_dir)
    as (Hcp & Hcm & Hpm & Hcr & Hpr & Hmr).
  assert (run_dir ≠ path_join base_dir "README.md") as Hdr.
  { apply (run_dir_not_readme fs (makedirs run_dir fs) base_dir date_str
             (choose_sf args metadata)); [|exact Hrun].
    destruct (choose_sf_fetched host conn schema metadata args Hfetch)
      as [(n & _ & ->)| ->]; [left; by exists n|by right]. }
  assert (∀ x, String.prefix "/" x = false → x ≠ "" →
               run_dir ≠ path_join run_dir x) as Hdx.
  { intros x Hx Hne Heq. by apply (path_join_longer run_dir x). }
  pose proof (update_readme_elsewhere _ _ _ _ (path_join run_dir "summary.csv")
                Hup Hcr) as Hcsv.
  pose proof (update_readme_elsewhere _ _ _ _ (path_join run_dir "queries.png")
                Hup Hpr) as Hpng.
  pose proof (update_readme_elsewhere _ _ _ _ (path_join run_dir "meta.json")
                Hup Hmr) as Hjson.
  pose proof (update_readme_elsewhere _ _ _ _ run_dir Hup Hdr) as Hdir.
  exists schema, bench_name, queries, conn, rows, metadata, run_dir, chart,
    meta.
  do 8 (split; [assumption|]).
  split.
  { rewrite Hdir, !lookup_insert_ne by (apply not_eq_sym, Hdx; done).
    destruct (fold_mkdir_new (ancestors run_dir ++ [run_dir]) fs run_dir
                Hfresh (makedirs_creates run_dir fs)) as [Hd _].
    exact Hd. }
  split.
  { rewrite Hcsv, !lookup_insert_ne by (by apply not_eq_sym).
    apply lookup_insert_eq. }
  split.
  { rewrite Hpng, lookup_insert_ne by (by apply not_eq_sym).
    apply lookup_insert_eq. }
  split; [rewrite Hjson; apply lookup_insert_eq|].
  split.
  - intros q n Hq Hnot.
    rewrite !not_elem_of_cons in Hnot.
    destruct Hnot as (Hqc & Hqp & Hqm & Hqr & _).
    rewrite (update_readme_elsewhere _ _ _ _ q Hup Hqr).
    rewrite !lookup_insert_ne by (by apply not_eq_sym).
    by apply makedirs_keeps.
  - intros q Hq Hsome.
    destruct (decide (q = path_join base_dir "README.md")) as [->|Hqr].
    { left. do 4 right. by left. }
    destruct (decide (q = path_join run_dir "meta.json")) as [->|Hqm].
    { left. do 3 right. by left. }
    destruct (decide (q = path_join run_dir "queries.png")) as [->|Hqp].
    { left. do 2 right. by left. }
    destruct (decide (q = path_join run_dir "summary.csv")) as [->|Hqc].
    { left. right. by left. }
    rewrite (update_readme_elsewhere _ _ _ _ q Hup Hqr) in Hsome |- *.
    rewrite !lookup_insert_ne in Hsome |- * by (by apply not_eq_sym).
    destruct (fold_mkdir_new (ancestors run_dir ++ [run_dir]) fs q Hq Hsome)
      as [Hd Hin].
    apply elem_of_app in Hin as [Hin|Hin]; [right; by split|].
    apply list_elem_of_singleton in Hin as ->. left. by left.
Qed.

Lemma load_runs_elem (fs : filesystem) (dirs : list string)
    (runs : list (string * Meta)) (d : string) (m : Meta) :
  load_runs fs dirs = Some runs →
  d ∈ dirs →
  fs !! path_join d "meta.json" = Some (File (Json m)) →
  (basename d, m) ∈ runs.
Proof.
  intros Hload Hd Hm. revert runs Hload.
  induction dirs as [|d' dirs IH]; intros runs Hload; [by inversion Hd|].
  cbn [load_runs] in Hload. apply elem_of_cons in Hd as [<-|Hd].
  - rewrite Hm in Hload. cbn [json_load mbind option_bind] in Hload.
    destruct (load_runs fs dirs) as [rest|]; [|discriminate].
    injection Hload as <-. by left.
  - destruct (fs !! path_join d' "meta.json") as [n'|]; [|by apply IH].
    destruct (json_load n') as [m'|]; [|discriminate].
    cbn [mbind option_bind] in Hload.
    destruct (load_runs fs dirs) as [rest|]; [|discriminate].
    injection Hload as <-. right. by apply IH.
Qed.

Lemma resolve_schema_config (host : Host) (args : Args) (schema : string)
    (cfg : string * Z) :
  resolve_schema host args = Some (schema, cfg) →
  dict_get CONFIGS schema = Some cfg.
Proof.
  unfold resolve_schema.
  destruct (match nonempty (arg_schema args) with
            | Some s => Some s
            | None => detect_schema (h_cwd host) (h_script_file host)
            end) as [s|]; [|discriminate].
  cbn [mbind option_bind].
  destruct (dict_get CONFIGS s) as [c|] eqn:E; [|discriminate].
  cbn [mbind option_bind]. intros [= <- <-]. exact E.
Qed.

(** X: when the date in use has the form [YYYY-MM-DD], a run of [main]
    that returns has rebuilt the index from a scan that includes the run
    just written: [README.md] holds the lines rendered from the runs
    that a scan of the final filesystem finds, the new run is one of
    them, and it has its line in the all-runs table as soon as there are
    two runs. *)
Theorem main_indexes_the_run (host : Host) (args : Args) (fs : filesystem) :
  let out := main host args fs in
  let base_dir :=
    default (dirname (abspath (h_cwd host) (h_script_file host)))
            (nonempty (arg_outdir args)) in
  let date_str := default (h_today host) (nonempty (arg_date args)) in
  fnmatch "????-??-??" date_str = true →
  has_slash date_str = false →
  String.prefix "." date_str = false →
  ending_of out = Returned →
  ∃ schema bench_name queries run_dir meta runs latest_dir latest lines,
    resolve_schema host args = Some (schema, (bench_name, queries))
    ∧ files out !! path_join run_dir "meta.json" = Some (File (Json meta))
    ∧ load_runs (files out) (run_dirs_of (files out) base_dir) = Some runs
    ∧ (basename run_dir, meta) ∈ runs
    ∧ head runs = Some (latest_dir, latest)
    ∧ readme_lines bench_name runs latest_dir latest = Some lines
    ∧ files out !! path_join base_dir "README.md"
      = Some (File (Text (join nl lines)))
    ∧ ((1 < length runs)%nat →
       all_runs_line (basename run_dir, meta) ∈ lines).
Proof.
  intros out base_dir date_str Hiso Hslash Hdot Hret. unfold out in *.
  clear out.
  destruct (main_returned host args fs Hret)
    as (schema & bench_name & queries & conn & rows & metadata & Hschema
        & Hconn & Hrows & _ & Hfetch & Hmain).
  rewrite Hmain in Hret |- *.
  destruct (generate_report_returned host args schema bench_name rows
              metadata fs Hret)
    as (run_dir & chart & meta & Hrun & Hfresh & Hchart & Hmeta & Hup).
  fold base_dir date_str in Hrun, Hchart, Hmeta, Hup.
  set (fs5 := files (generate_report host args schema bench_name rows
                       metadata fs)) in *.
  clearbody fs5. clear Hmain Hret.
  set (fs4 := <[path_join run_dir "meta.json" := File (Json meta)]> _) in Hup.
  assert (fs4 !! path_join run_dir "meta.json" = Some (File (Json meta)))
    as Hjson by apply lookup_insert_eq.
  assert (run_dir ∈ run_dirs_of fs4 base_dir) as Hscan.
  { apply run_dirs_elem. split.
    - unfold fs4. rewrite !lookup_insert_is_Some'. do 3 right.
      apply makedirs_creates.
    - apply (allocated_is_run_entry fs (makedirs run_dir fs) base_dir
               date_str (choose_sf args metadata)); try done.
      apply (all_chars_no_slash
               (λ c, negb (Ascii.eqb c "d") && negb (Ascii.eqb c "/")));
        [done|].
      apply scale_has_no_d.
      destruct (choose_sf_fetched host conn schema metadata args Hfetch)
        as [(n & _ & ->)| ->]; [left; by exists n|by right]. }
  unfold update_readme in Hup.
  rewrite (resolve_schema_config _ _ _ _ Hschema) in Hup.
  cbn [mbind option_bind fst] in Hup.
  destruct (load_runs fs4 (run_dirs_of fs4 base_dir)) as [runs|] eqn:Hload;
    [|discriminate].
  cbn [mbind option_bind] in Hup.
  pose proof (load_runs_elem _ _ _ _ _ Hload Hscan Hjson) as Hin.
  destruct runs as [|[latest_dir latest] runs']; [by inversion Hin|].
  destruct (readme_lines bench_name ((latest_dir, latest) :: runs')
              latest_dir latest) as [lines|] eqn:Hlines; [|discriminate].
  cbn [mbind option_bind] in Hup. injection Hup as <-.
  exists schema, bench_name, queries, run_dir, meta,
    ((latest_dir, latest) :: runs'), latest_dir, latest, lines.
  split; [exact Hschema|]. split.
  { rewrite lookup_insert_ne; [exact Hjson|].
    apply not_eq_sym, meta_path_not_readme. }
  split.
  { rewrite run_dirs_insert by apply readme_is_no_run_entry.
    by rewrite load_runs_insert. }
  split; [exact Hin|]. split; [reflexivity|]. split; [exact Hlines|].
  split; [apply lookup_insert_eq|].
  intros Hlen. by apply (readme_lines_all_runs _ _ _ _ _ _ Hlines Hlen).
Qed.

Lemma main_writes_the_run_witness :
  ∃ run_dir,
    (∅ : filesystem) !! run_dir = None
    ∧ files (main host_A no_args ∅) !! run_dir = Some Dir
    ∧ is_Some (files (main host_A no_args ∅) !! path_join run_dir "meta.json").
Proof.
  assert (ending_of (main host_A no_args ∅) = Returned) as Hret
    by (vm_compute; reflexivity).
  destruct (main_writes_the_run host_A no_args ∅ Hret)
    as (schema & bench_name & queries & conn & rows & metadata & run_dir
        & chart & meta & _ & _ & _ & _ & _ & _ & _ & Hfresh & Hdir & _ & _
        & Hmeta & _).
  exists run_dir. split; [exact Hfresh|]. split; [exact Hdir|].
  rewrite Hmeta. by eexists.
Defined.

Lemma main_indexes_the_run_witness :
  ∃ run_dir meta runs,
    files (main host_A no_args ∅) !! path_join run_dir "meta.json"
    = Some (File (Json meta))
    ∧ (basename run_dir, meta) ∈ runs
    ∧ load_runs (files (main host_A no_args ∅))
        (run_dirs_of (files (main host_A no_args ∅))
           "/home/bench/pg_tpcds/benchmarks")
      = Some runs.
Proof.
  assert (ending_of (main host_A no_args ∅) = Returned) as Hret
    by (vm_compute; reflexivity).
  destruct (main_indexes_the_run host_A no_args ∅ eq_refl eq_refl eq_refl
              Hret)
    as (schema & bench_name & queries & run_dir & meta & runs & latest_dir
        & latest & lines & _ & Hmeta & Hload & Hin & _).
  exists run_dir, meta, runs. split; [exact Hmeta|]. split; [exact Hin|].
  exact Hload.
Defined.

(** X: [main] ends by [sys.exit] in three cases only, each before
    anything is printed to [stdout] or written: no configured benchmark
    for the schema, a refused connection, an empty summary table.  The
    status is always 1, [stderr] gets one line that starts with
    ["ERROR: "], and the filesystem is left as it was. *)
Theorem main_exit_leaves_no_trace (host : Host) (args : Args)
    (fs : filesystem) (code : Z) :
  let out := main host args fs in
  ending_of out = Exited code →
  code = 1
  ∧ stdout out = []
  ∧ files out = fs
  ∧ (∃ msg, stderr out = ["ERROR: " +:+ msg])
  ∧ (resolve_schema host args = None
     ∨ ∃ schema cfg,
         resolve_schema host args = Some (schema, cfg)
         ∧ ((∃ e, h_connect host (connect_params args) = inl e
                  ∧ stderr out = ["ERROR: Cannot connect to PostgreSQL: " +:+ e])
            ∨ ∃ conn, h_connect host (connect_params args) = inr conn
                      ∧ fetch_bench_data conn schema = Some [])).
Proof.
  intros out. unfold out, main. clear out.
  destruct (resolve_schema host args) as [[schema cfg]|] eqn:Hschema.
  2:{ intros [= <-]. do 3 (split; [reflexivity|]).
      split; [by eexists|by left]. }
  destruct (h_connect host (connect_params args)) as [e|conn] eqn:Hconn.
  { intros [= <-]. do 3 (split; [reflexivity|]).
    split; [by eexists|]. right. exists schema, cfg.
    split; [reflexivity|]. left. by exists e. }
  destruct (fetch_bench_data conn schema) as [[|r rows]|] eqn:Hrows.
  - intros [= <-]. do 3 (split; [reflexivity|]).
    split; [by eexists|]. right. exists schema, cfg.
    split; [reflexivity|]. right. by exists conn.
  - destruct (fetch_metadata host conn schema) as [metadata|];
      [|discriminate].
    intros Hexit.
    destruct (generate_report_no_exit host args schema (fst cfg) (r :: rows)
                metadata fs) as [[Hend|Hend] _]; congruence.
  - discriminate.
Qed.

Lemma main_exit_leaves_no_trace_witness :
  stdout (main host_down no_args ∅) = []
  ∧ files (main host_down no_args ∅) = ∅.
Proof.
  assert (ending_of (main host_down no_args ∅) = Exited 1) as Hexit
    by (vm_compute; reflexivity).
  destruct (main_exit_leaves_no_trace host_down no_args ∅ 1 Hexit)
    as (_ & Hout & Hfiles & _).
  split; [exact Hout|exact Hfiles].
Defined.

(** The scale factor that [fetch_metadata] stores. *)
Lemma fetch_metadata_scale (host : Host) (conn : Connection) (schema : string)
    (metadata : dict pyval) :
  fetch_metadata host conn schema = Some metadata →
  ∃ row sfv,
    config_scale_factor conn schema = Some row
    ∧ scale_factor_of row = Some sfv
    ∧ dict_get metadata "scale_factor" = Some sfv.
Proof.
  unfold fetch_metadata, gucs. cbn [foldl].
  destruct (server_version conn) as [version|]; [|done].
  destruct (show conn "server_version_num" ≫= py_int) as [num|]; [|done].
  destruct (show conn "shared_buffers") as [sb|]; [|done].
  destruct (show conn "work_mem") as [wm|]; [|done].
  destruct (show conn "effective_cache_size") as [ecs|]; [|done].
  destruct (show conn "max_parallel_workers_per_gather") as [mpw|]; [|done].
  destruct (show conn "max_connections") as [mc|]; [|done].
  cbn [mbind option_bind].
  destruct (config_scale_factor conn schema) as [row|]; [|done].
  cbn [mbind option_bind].
  destruct (scale_factor_of row) as [sfv|] eqn:Hsf; [|done].
  cbn [mbind option_bind]. intros [= <-].
  exists row, sfv. split; [reflexivity|]. split; [exact Hsf|].
  vm_compute. reflexivity.
Qed.

(** X: a scale factor of 0 counts as missing, on the command line and in
    the [config] table alike, so that the scale factor in use is a
    non-zero integer or the word ["unknown"]; a non-zero [--sf] wins over
    the table, and without one (or with [--sf 0]) the scale factor is the
    table's, read as an integer, when the table has one that is neither
    empty nor zero. *)
Theorem scale_factor_choice (host : Host) (conn : Connection)
    (schema : string) (metadata : dict pyval) (args : Args) :
  fetch_metadata host conn schema = Some metadata →
  ((∃ n, n ≠ 0 ∧ choose_sf args metadata = SfInt n)
   ∨ choose_sf args metadata = SfStr "unknown")
  ∧ (∀ n, arg_sf args = Some n → n ≠ 0 → choose_sf args metadata = SfInt n)
  ∧ (arg_sf args = None ∨ arg_sf args = Some 0 →
     ∃ row, config_scale_factor conn schema = Some row
       ∧ choose_sf args metadata
         = match scale_factor_of row with
           | Some (VInt n) => if (n =? 0)%Z then SfStr "unknown" else SfInt n
           | _ => SfStr "unknown"
           end).
Proof.
  intros Hfetch. split; [by apply (choose_sf_fetched host conn schema)|].
  split.
  - intros n Hn Hne. unfold choose_sf. rewrite Hn.
    by destruct (Z.eqb_spec n 0).
  - intros Hargs.
    destruct (fetch_metadata_scale _ _ _ _ Hfetch)
      as (row & sfv & Hrow & Hsf & Hget).
    exists row. split; [exact Hrow|].
    unfold choose_sf. rewrite Hget, Hsf.
    assert (match sfv with
            | VInt n => if (n =? 0)%Z then SfStr "unknown" else SfInt n
            | VStr s => if String.eqb s "" then SfStr "unknown" else SfStr s
            | VNone => SfStr "unknown"
            end
            = match sfv with
              | VInt n => if (n =? 0)%Z then SfStr "unknown" else SfInt n
              | _ => SfStr "unknown"
              end) as ->.
    { destruct sfv as [s|n|]; try reflexivity. exfalso.
      unfold scale_factor_of in Hsf.
      destruct row as [[s'|n'|]|]; try discriminate Hsf.
      - destruct (String.eqb s' ""); [discriminate Hsf|].
        destruct (py_int s'); discriminate Hsf.
      - by destruct (n' =? 0)%Z. }
    by destruct Hargs as [-> | ->].
Qed.

Lemma scale_factor_choice_witness :
  ∃ metadata,
    fetch_metadata host_A conn_A "tpcds" = Some metadata
    ∧ choose_sf no_args metadata = SfInt 1.
Proof.
  assert (is_Some (fetch_metadata host_A conn_A "tpcds")) as Hsome
    by (vm_compute; eexists; reflexivity).
  destruct (fetch_metadata host_A conn_A "tpcds") as [metadata|] eqn:Hfetch;
    [|by destruct Hsome].
  destruct (scale_factor_choice host_A conn_A "tpcds" metadata no_args Hfetch)
    as (_ & _ & Hrow).
  destruct (Hrow (or_introl eq_refl)) as (row & Hcfg & Heq).
  exists metadata. split; [reflexivity|]. rewrite Heq.
  vm_compute in Hcfg. injection Hcfg as <-. reflexivity.
Defined.

(** X: [main] goes on with one of the two configured benchmarks only,
    under its own name.  A schema forced on the command line is the one
    used, wherever the script lies; without one the schema is the
    detected one, and detection never yields a schema that is not
    configured. *)
Theorem resolved_schema_is_configured (host : Host) (args : Args) :
  (∀ schema cfg, resolve_schema host args = Some (schema, cfg) →
     (schema = "tpcds" ∧ cfg = ("TPC-DS", 99))
     ∨ (schema = "tpch" ∧ cfg = ("TPC-H", 22)))
  ∧ (∀ s, nonempty (arg_schema args) = Some s →
       resolve_schema host args
       = (λ cfg, (s, cfg)) <$> dict_get CONFIGS s)
  ∧ (nonempty (arg_schema args) = None →
       (resolve_schema host args = None
        ↔ detect_schema (h_cwd host) (h_script_file host) = None)
       ∧ ∀ schema cfg, resolve_schema host args = Some (schema, cfg) →
           detect_schema (h_cwd host) (h_script_file host) = Some schema).
Proof.
  assert (∀ s cfg, dict_get CONFIGS s = Some cfg →
            (s = "tpcds" ∧ cfg = ("TPC-DS", 99))
            ∨ (s = "tpch" ∧ cfg = ("TPC-H", 22))) as Hcfg.
  { intros s cfg. unfold CONFIGS. cbn [dict_get].
    destruct (String.eqb_spec s "tpcds") as [->|_]; [intros [= <-]; by left|].
    destruct (String.eqb_spec s "tpch") as [->|_]; [intros [= <-]; by right|].
    discriminate. }
  split; [|split].
  - intros schema cfg. unfold resolve_schema.
    destruct (match nonempty (arg_schema args) with
              | Some s => Some s
              | None => detect_schema (h_cwd host) (h_script_file host)
              end) as [s|]; [|discriminate].
    cbn [mbind option_bind].
    destruct (dict_get CONFIGS s) as [c|] eqn:E; [|discriminate].
    cbn [mbind option_bind]. intros [= <- <-]. by apply Hcfg.
  - intros s Hs. unfold resolve_schema. rewrite Hs. cbn [mbind option_bind].
    by destruct (dict_get CONFIGS s).
  - intros Hnone. unfold resolve_schema. rewrite Hnone.
    unfold detect_schema.
    destruct (contains "tpcds" _); [split; [split|]; try discriminate|].
    { intros schema cfg [= <- _]. reflexivity. }
    destruct (contains "tpch" _); [split; [split|]; try discriminate|].
    { intros schema cfg [= <- _]. reflexivity. }
    split; [split|]; done.
Qed.
